(** * chain3go: unit conversion, quantity formatting and address checks

    A shallow embedding of the conversion helpers of [chain3/chain3.go]
    ([ToBigNumber], [FromDecimal], [ToSha], [FromSha], [getValueOfUnit],
    [IsAddress], [isChecksumAddress], [Sha3]) together with the parts of
    the Go runtime and standard library they rely on ([strings],
    [strconv], [regexp], [math/big]).

    Go strings are byte sequences and are modelled by [string]; a
    [*big.Int] is a [Z]; a [*big.Rat] is a canonical rational [Qc] and a
    nil [*big.Rat] is [None]; a run-time panic is the [Panic] outcome of
    the [result] monad. *)

From Stdlib Require Import ZArith NArith QArith Qcanon String Ascii List Lia.
From stdpp Require Import gmap strings.

Local Open Scope string_scope.
Local Open Scope Z_scope.

(** ** Outcomes of a Go call *)

(** The run-time panics the modelled functions can raise. *)
Inductive panic : Type :=
| IndexOutOfRange   (* s[i] or s[i:] outside the string *)
| NilDereference    (* method call through a nil *big.Rat *)
| DivisionByZero    (* big.Rat.Quo with a zero divisor *)
| UnknownUnit.      (* the explicit panic of getValueOfUnit *)

Inductive result (A : Type) : Type :=
| Ok (a : A)
| Panic (p : panic).
Arguments Ok {A} a.
Arguments Panic {A} p.

#[global] Instance result_ret : MRet result := fun A a => Ok a.
#[global] Instance result_bind : MBind result := fun A B f m =>
  match m with
  | Ok a => f a
  | Panic p => Panic p
  end.

(** A call returns normally when it does not panic. *)
Definition returns {A} (r : result A) : Prop := exists a, r = Ok a.

(** ** Bytes and strings *)

Definition byte_lt (c : ascii) (n : N) : bool := (N_of_ascii c <? n)%N.
Definition byte_in (lo hi c : ascii) : bool :=
  ((N_of_ascii lo <=? N_of_ascii c) && (N_of_ascii c <=? N_of_ascii hi))%N.

Fixpoint string_forall (p : ascii -> bool) (s : string) : bool :=
  match s with
  | EmptyString => true
  | String c s' => p c && string_forall p s'
  end.

Fixpoint string_map (f : ascii -> ascii) (s : string) : string :=
  match s with
  | EmptyString => EmptyString
  | String c s' => String (f c) (string_map f s')
  end.

(** [s[i]]: indexing a string yields a byte, or panics out of range. *)
Definition string_index (s : string) (i : nat) : result ascii :=
  match String.get i s with
  | Some c => Ok c
  | None => Panic IndexOutOfRange
  end.

Fixpoint string_drop (n : nat) (s : string) : string :=
  match n, s with
  | O, _ => s
  | S n', String _ s' => string_drop n' s'
  | S _, EmptyString => EmptyString
  end.

(** [s[lo:]]: slicing panics when [lo] exceeds the length. *)
Definition string_slice_from (s : string) (lo : nat) : result string :=
  if (lo <=? String.length s)%nat then Ok (string_drop lo s)
  else Panic IndexOutOfRange.

(** [string(b)] for a byte [b]: the UTF-8 encoding of the rune U+00[b]. *)
Definition string_of_byte (b : ascii) : string :=
  let n := N_of_ascii b in
  if (n <? 128)%N then String b EmptyString
  else String (ascii_of_N (192 + n / 64))
         (String (ascii_of_N (128 + n mod 64)) EmptyString).

(** *** Package [strings] on ASCII input *)

Definition isASCII (s : string) : bool := string_forall (fun c => byte_lt c 128) s.

Definition ascii_lower (c : ascii) : ascii :=
  if byte_in "A" "Z" c then ascii_of_N (N_of_ascii c + 32) else c.
Definition ascii_upper (c : ascii) : ascii :=
  if byte_in "a" "z" c then ascii_of_N (N_of_ascii c - 32) else c.

(** The [asciiSpace] table: tab, newline, vertical tab, form feed,
    carriage return and space. *)
Definition asciiSpace (c : ascii) : bool :=
  let n := N_of_ascii c in ((9 <=? n) && (n <=? 13) || (n =? 32))%N.

Fixpoint trim_left (s : string) : string :=
  match s with
  | EmptyString => EmptyString
  | String c s' => if asciiSpace c then trim_left s' else s
  end.

Fixpoint trim_right (s : string) : string :=
  match s with
  | EmptyString => EmptyString
  | String c s' =>
      match trim_right s' with
      | EmptyString => if asciiSpace c then EmptyString else String c EmptyString
      | r => String c r
      end
  end.

(** [strings.Index(s, sub)]: byte offset of the first occurrence, or -1. *)
Fixpoint strings_Index (s sub : string) : Z :=
  if String.prefix sub s then 0
  else match s with
       | EmptyString => -1
       | String _ s' =>
           let r := strings_Index s' sub in
           if r <? 0 then -1 else r + 1
       end.

(** [strings.Replace(s, old, new, -1)] for a non-empty [old]: every
    non-overlapping occurrence, left to right.  [skip] counts the bytes
    of a matched occurrence still to be dropped. *)
Fixpoint replace_from (old new s : string) (skip : nat) : string :=
  match s with
  | EmptyString => EmptyString
  | String c s' =>
      match skip with
      | S k => replace_from old new s' k
      | O =>
          if String.prefix old s
          then new ++ replace_from old new s' (String.length old - 1)
          else String c (replace_from old new s' 0)
      end
  end.

Definition strings_Replace (s old new : string) : string :=
  replace_from old new s 0.

(** ** Positional numerals ([math/big] and [strconv]) *)

(** The digit alphabet of [big.Int.Text]: "0123456789abcdefghijklmnopqrstuvwxyz". *)
Definition digit_char (d : N) : ascii :=
  if (d <? 10)%N then ascii_of_N (48 + d) else ascii_of_N (87 + d).

(** Value of a digit character for bases up to 36; 63 stands for
    "not a digit" (MaxBase + 1 in [nat.scan]). *)
Definition digit_val (c : ascii) : N :=
  let n := N_of_ascii c in
  if byte_in "0" "9" c then (n - 48)%N
  else if byte_in "a" "z" c then (n - 87)%N
  else if byte_in "A" "Z" c then (n - 55)%N
  else 63%N.

(** Digits of [n], least significant first. *)
Fixpoint digits_lsd (fuel : nat) (base n : N) : list N :=
  match fuel with
  | O => []
  | S fuel' =>
      if (n <? base)%N then [n]
      else (n mod base)%N :: digits_lsd fuel' base (n / base)%N
  end.

Definition digits_fuel (n : N) : nat := S (N.to_nat (N.log2 n)).

Definition string_of_digits (ds : list N) : string :=
  fold_right (fun d s => String (digit_char d) s) EmptyString ds.

(** Magnitude in the given base, no leading zero, "0" for zero. *)
Definition nat_Text (base n : N) : string :=
  string_of_digits (rev (digits_lsd (digits_fuel n) base n)).

(** [x.Text(base)] of a [*big.Int]. *)
Definition Int_Text (x : Z) (base : N) : string :=
  if x <? 0 then String "-" (nat_Text base (Z.abs_N x))
  else nat_Text base (Z.abs_N x).

(** [x.String()] is [x.Text(10)]. *)
Definition Int_String (x : Z) : string := Int_Text x 10.

(** Scan a non-empty run of digits below [base] that covers the whole
    string; [acc] is the value read so far. *)
Fixpoint scan_digits (base : N) (acc : N) (s : string) : option N :=
  match s with
  | EmptyString => Some acc
  | String c s' =>
      let d := digit_val c in
      if (d <? base)%N then scan_digits base (acc * base + d)%N s' else None
  end.

Definition scan_mantissa (base : N) (s : string) : option N :=
  match s with
  | EmptyString => None
  | _ => scan_digits base 0 s
  end.

(** [new(big.Int).SetString(s, base)] for an explicit base (2..36): an
    optional sign, then digits; no prefix and no underscore is accepted
    and the whole string must be consumed.  [None] is the [ok = false]
    outcome. *)
Definition Int_SetString (s : string) (base : N) : option Z :=
  match s with
  | String "-" s' => option_map (fun n => - Z.of_N n) (scan_mantissa base s')
  | String "+" s' => option_map Z.of_N (scan_mantissa base s')
  | _ => option_map Z.of_N (scan_mantissa base s)
  end.

(** [strconv.ParseInt(s, base, bitSize)] for an explicit base: the same
    syntax, and a range error outside the signed [bitSize]-bit range. *)
Definition strconv_ParseInt (s : string) (base : N) (bitSize : Z) : option Z :=
  match Int_SetString s base with
  | Some v =>
      if (- 2 ^ (bitSize - 1) <=? v) && (v <? 2 ^ (bitSize - 1)) then Some v
      else None
  | None => None
  end.

(** [fmt.Sprintf("%x", u)] for an unsigned integer. *)
Definition fmt_Sprintf_x (u : N) : string := nat_Text 16 u.

(** *** Digit lists *)

Definition shift_in (base a d : N) : N := (a * base + d)%N.

(** Value of a digit list, most significant digit first. *)
Definition digits_value (base acc : N) (ds : list N) : N :=
  fold_left (shift_in base) ds acc.

Fixpoint digit_vals (s : string) : list N :=
  match s with
  | EmptyString => []
  | String c s' => digit_val c :: digit_vals s'
  end.

(** A digit list with no superfluous leading zero. *)
Definition canonical (ds : list N) : Prop :=
  match ds with
  | [] => False
  | d :: ds' => d <> 0%N \/ ds' = []
  end.

(** ** Regular expressions ([regexp]) *)

(** The fragment used by [IsAddress]: literals, byte ranges, alternation
    and concatenation; [x?] and [x{n}] are derived forms.  All ranges of
    the source are ASCII, so a byte of a multi-byte rune matches none. *)
Inductive regex : Type :=
| Void
| Eps
| Range (lo hi : ascii)
| Alt (r1 r2 : regex)
| Cat (r1 r2 : regex).

Definition Lit (c : ascii) : regex := Range c c.
Definition Opt (r : regex) : regex := Alt r Eps.

Fixpoint Word (w : string) : regex :=
  match w with
  | EmptyString => Eps
  | String c w' => Cat (Lit c) (Word w')
  end.

Fixpoint Repeat (n : nat) (r : regex) : regex :=
  match n with
  | O => Eps
  | S n' => Cat r (Repeat n' r)
  end.

Fixpoint nullable (r : regex) : bool :=
  match r with
  | Void => false
  | Eps => true
  | Range _ _ => false
  | Alt r1 r2 => nullable r1 || nullable r2
  | Cat r1 r2 => nullable r1 && nullable r2
  end.

Fixpoint deriv (c : ascii) (r : regex) : regex :=
  match r with
  | Void => Void
  | Eps => Void
  | Range lo hi => if byte_in lo hi c then Eps else Void
  | Alt r1 r2 => Alt (deriv c r1) (deriv c r2)
  | Cat r1 r2 =>
      if nullable r1 then Alt (Cat (deriv c r1) r2) (deriv c r2)
      else Cat (deriv c r1) r2
  end.

(** [regexp.MustCompile("^" + r + "$").MatchString(s)]: without the
    multi-line flag the anchors are the ends of the text, so the whole
    string has to match. *)
Fixpoint regexp_MatchString (r : regex) (s : string) : bool :=
  match s with
  | EmptyString => nullable r
  | String c s' => regexp_MatchString (deriv c r) s'
  end.

(** The words of a regular expression. *)
Inductive lang : regex -> string -> Prop :=
| lang_eps : lang Eps EmptyString
| lang_range lo hi c : byte_in lo hi c = true -> lang (Range lo hi) (String c EmptyString)
| lang_alt_l r1 r2 s : lang r1 s -> lang (Alt r1 r2) s
| lang_alt_r r1 r2 s : lang r2 s -> lang (Alt r1 r2) s
| lang_cat r1 r2 s1 s2 : lang r1 s1 -> lang r2 s2 -> lang (Cat r1 r2) (s1 ++ s2).

(** ** Values of type [interface{}] *)

(** The dynamic types the conversion functions distinguish; [VOther]
    is a value of any other type (a machine [int], a float, nil, ...). *)
Inductive value : Type :=
| VRat (v : Qc)
| VInt (v : Z)
| VString (v : string)
| VOther.

(** ** External collaborators

    Library code outside the repository sources: the Unicode paths of
    package [strings] (taken only for input with a byte above 0x7f), the
    Keccak-256 sponge, the hex codecs of package [common],
    [encoding/json], the float conversion of [big.Rat], and the
    contents of a [big.Int] after a failed [SetString] (left undefined
    by its documentation). *)
Class GoLibrary : Type := {
  unicode_ToLower : string -> string;
  unicode_ToUpper : string -> string;
  unicode_TrimSpace : string -> string;
  sha3_Keccak256 : string -> string;
  common_BytesToHex : string -> string;
  common_HexToBytes : string -> string;
  (* json.Marshal(v): the encoding, or None for an error *)
  json_Marshal : value -> option string;
  (* json.Unmarshal(b, &opt): the Encoding field afterwards, or None for an error *)
  json_Unmarshal_Encoding : string -> option string;
  (* math.Float64bits(v) for v, _ := x.Float64() *)
  Rat_Float64bits : Qc -> N;
  Int_SetString_failed : string -> N -> Z
}.

(** ** [math/big]: rationals *)

Definition Rat_SetInt (x : Z) : Qc := Q2Qc (inject_Z x).
Definition Rat_IsInt (x : Qc) : bool := (Qden (this x) =? 1)%positive.
Definition Rat_Num (x : Qc) : Z := Qnum (this x).
Definition Rat_Cmp (x y : Qc) : Z :=
  match (x ?= y)%Qc with
  | Lt => -1
  | Eq => 0
  | Gt => 1
  end.

(** [z.Mul(z, y)] and [z.Quo(z, y)] with the receiver as first operand;
    a nil receiver panics, and so does a zero divisor. *)
Definition Rat_Mul (z : option Qc) (y : Qc) : result Qc :=
  match z with
  | Some x => Ok (x * y)%Qc
  | None => Panic NilDereference
  end.

Definition Rat_Quo (z : option Qc) (y : Qc) : result Qc :=
  if Rat_Num y =? 0 then Panic DivisionByZero
  else match z with
       | Some x => Ok (x / y)%Qc
       | None => Panic NilDereference
       end.

Definition rat0 : Qc := Q2Qc (0 # 1).

(** ** The unit table *)

Definition unitMap : gmap string string :=
  list_to_map [
    ("Gsha",    "1000000000");
    ("Ksha",    "1000");
    ("Msha",    "1000000");
    ("femtomc", "1000");
    ("gmc",     "1000000000000000000000000000");
    ("grand",   "1000000000000000000000");
    ("gsha",    "1000000000");
    ("kmc",     "1000000000000000000000");
    ("ksha",    "1000");
    ("mc",      "1000000000000000000");
    ("micro",   "1000000000000");
    ("micromc", "1000000000000");
    ("milli",   "1000000000000000");
    ("millimc", "1000000000000000");
    ("mmc",     "1000000000000000000000000");
    ("msha",    "1000000");
    ("nano",    "1000000000");
    ("nanomc",  "1000000000");
    ("nomc",    "0");
    ("picomc",  "1000000");
    ("sand",    "1000000000000");
    ("sha",     "1");
    ("tmc",     "1000000000000000000000000000000");
    ("xiao",    "1000000000")
  ].

(** ** Auxiliary notions used in the statements *)

(** Bytes that are neither a sign nor the letter x. *)
Definition plain_byte (c : ascii) : bool :=
  negb (Ascii.eqb c "x") && negb (Ascii.eqb c "-") && negb (Ascii.eqb c "+").

Definition not_x (c : ascii) : bool := negb (Ascii.eqb c "x").

(** A string that does not start with a blank. *)
Definition trimmed_left (s : string) : Prop :=
  match s with
  | EmptyString => True
  | String c _ => asciiSpace c = false
  end.

(** The scale factors of the external interface, as the specification
    lists them. *)
Definition listed_units : list (string * Z) := [
  ("sha", 1);
  ("ksha", 10 ^ 3); ("Ksha", 10 ^ 3);
  ("msha", 10 ^ 6); ("Msha", 10 ^ 6);
  ("gsha", 10 ^ 9); ("Gsha", 10 ^ 9); ("nano", 10 ^ 9); ("nanomc", 10 ^ 9);
  ("micro", 10 ^ 12); ("micromc", 10 ^ 12);
  ("milli", 10 ^ 15); ("millimc", 10 ^ 15);
  ("mc", 10 ^ 18);
  ("kmc", 10 ^ 21); ("grand", 10 ^ 21);
  ("mmc", 10 ^ 24);
  ("gmc", 10 ^ 27);
  ("tmc", 10 ^ 30);
  ("nomc", 0)
].

(** A hex quantity string: an optional minus sign, the prefix "0x" and
    the digits. *)
Definition hex_quantity (neg : bool) (ds : string) : string :=
  (if neg then "-" else "") ++ "0x" ++ ds.

(** Dropping leading zeros, keeping the last digit. *)
Fixpoint strip_zeros (s : string) : string :=
  match s with
  | String c (String _ _ as s') => if Ascii.eqb c "0" then strip_zeros s' else s
  | _ => s
  end.

(** The normal form of a hex quantity string: no leading zero, lower
    case letters. *)
Definition normalize_hex (neg : bool) (ds : string) : string :=
  hex_quantity neg (string_map ascii_lower (strip_zeros ds)).


(** The two character classes of the address patterns. *)
Definition lower_hex (c : ascii) : bool := byte_in "0" "9" c || byte_in "a" "f" c.
Definition upper_hex (c : ascii) : bool := byte_in "0" "9" c || byte_in "A" "F" c.

(** Forty characters of a class after an optional "0x". *)
Definition hex40 (p : ascii -> bool) (s : string) : Prop :=
  exists body, (s = body \/ s = "0x" ++ body)
               /\ String.length body = 40%nat /\ string_forall p body = true.

(** [r] matches exactly the one-byte strings of class [p]. *)
Definition class_regex (p : ascii -> bool) (r : regex) : Prop :=
  forall s, lang r s <-> exists c, s = String c "" /\ p c = true.

(** Two hex digits per byte, as a digest is printed. *)
Definition hex_of_byte (b : ascii) : string :=
  String (digit_char (N_of_ascii b / 16)) (String (digit_char (N_of_ascii b mod 16)) "").

Fixpoint hex_of_bytes (s : string) : string :=
  match s with
  | EmptyString => EmptyString
  | String b s' => hex_of_byte b ++ hex_of_bytes s'
  end.

Definition strip_0x (s : string) : string :=
  if String.prefix "0x" s then string_drop 2 s else s.

(** ** The functions of [chain3.go] *)

Section Chain3.
Context {lib : GoLibrary}.

(** [strings.ToLower], [strings.ToUpper], [strings.TrimSpace]: exact on
    ASCII input, the library's Unicode path otherwise. *)
Definition strings_ToLower (s : string) : string :=
  if isASCII s then string_map ascii_lower s else unicode_ToLower s.
Definition strings_ToUpper (s : string) : string :=
  if isASCII s then string_map ascii_upper s else unicode_ToUpper s.
Definition strings_TrimSpace (s : string) : string :=
  if isASCII s then trim_right (trim_left s) else unicode_TrimSpace s.

(** [i.SetString(s, base)] with the result flag ignored: on failure the
    receiver holds whatever the library left in it. *)
Definition Int_SetString_into (s : string) (base : N) : Z :=
  match Int_SetString s base with
  | Some v => v
  | None => Int_SetString_failed s base
  end.

Definition sha3Hash (data : list string) : string :=
  sha3_Keccak256 (fold_right String.append EmptyString data).

Definition Sha3 (data : string) (options : value) : string :=
  let plain := common_BytesToHex (sha3Hash [data]) in
  let decoded :=
    match options with
    | VString o => json_Unmarshal_Encoding o
    | _ =>
        match json_Marshal options with
        | Some optBytes => json_Unmarshal_Encoding optBytes
        | None => None
        end
    end in
  match decoded with
  | None => plain
  | Some Encoding =>
      if String.eqb Encoding "hex"
      then common_BytesToHex (sha3Hash [common_HexToBytes data])
      else plain
  end.

Definition ToBigNumber (value : value) : option Qc :=
  match value with
  | VRat v => Some v
  | VInt v => Some (Rat_SetInt v)
  | VString v =>
      let i :=
        if (strings_Index v "0x" =? 0) || (strings_Index v "-0x" =? 0)
        then Int_SetString_into (strings_Replace v "0x" "") 16
        else Int_SetString_into v 10 in
      Some (Rat_SetInt i)
  | VOther => None
  end.

Definition FromDecimal (value : value) : result string :=
  match ToBigNumber value with
  | None => Panic NilDereference
  | Some number =>
      if Rat_IsInt number then
        let result := Int_Text (Rat_Num number) 16 in
        if Rat_Cmp number rat0 <? 0
        then tail ← string_slice_from result 1; Ok ("-0x" ++ tail)
        else Ok ("0x" ++ result)
      else Ok (fmt_Sprintf_x (Rat_Float64bits number))
  end.

Definition getValueOfUnit (unit : string) : result Qc :=
  let u := strings_TrimSpace unit in
  let u := if negb (String.eqb u "") then strings_ToLower u else "ether" in
  match unitMap !! u with
  | Some unitValue => Ok (Rat_SetInt (Int_SetString_into unitValue 10))
  | None => Panic UnknownUnit
  end.

Definition FromSha (number : string) (unit : string) : result string :=
  let num := ToBigNumber (VString number) in
  scale ← getValueOfUnit unit;
  returnValue ← Rat_Quo num scale;
  Ok (Int_String (Rat_Num returnValue)).

Definition ToSha (number : value) (unit : string) : result string :=
  let num := ToBigNumber number in
  scale ← getValueOfUnit unit;
  returnValue ← Rat_Mul num scale;
  Ok (Int_String (Rat_Num returnValue)).

(** The body of the loop [for i := 0; i < 40; i++] of
    [isChecksumAddress], with [todo] iterations left. *)
Fixpoint isChecksumAddress_loop (address addressHash : string) (i todo : nat)
  : result bool :=
  match todo with
  | O => Ok true
  | S todo' =>
      h ← string_index addressHash i;
      match strconv_ParseInt (string_of_byte h) 16 32 with
      | None => Ok false
      | Some d =>
          upper ←
            (if 7 <? d
             then c ← string_index address i;
                  Ok (String.eqb (strings_ToUpper (string_of_byte c)) (string_of_byte c))
             else Ok false);
          reject ←
            (if upper : bool then Ok true
             else if d <=? 7
             then c ← string_index address i;
                  Ok (String.eqb (strings_ToLower (string_of_byte c)) (string_of_byte c))
             else Ok false);
          if reject : bool then Ok false
          else isChecksumAddress_loop address addressHash (S i) todo'
      end
  end.

Definition isChecksumAddress (address : string) : result bool :=
  let addr := strings_Replace address "0x" "" in
  let addressHash := Sha3 (strings_ToLower addr) (VString "") in
  isChecksumAddress_loop address addressHash 0 40.

Definition hexLower : regex := Alt (Range "0" "9") (Range "a" "f").
Definition hexUpper : regex := Alt (Range "0" "9") (Range "A" "F").
(** "^(0x)?[0-9a-f]{40}$" and "^(0x)?[0-9A-F]{40}$" between the anchors. *)
Definition smallCapsMatcher : regex := Cat (Opt (Word "0x")) (Repeat 40 hexLower).
Definition allCapsMatcher : regex := Cat (Opt (Word "0x")) (Repeat 40 hexUpper).

Definition IsAddress (address : string) : result bool :=
  let smallCapsMatched := regexp_MatchString smallCapsMatcher address in
  let allCapsMatched := regexp_MatchString allCapsMatcher address in
  if smallCapsMatched || allCapsMatched then Ok true
  else isChecksumAddress address.

(** The key [getValueOfUnit] looks up for a unit name. *)
Definition unit_key (unit : string) : string :=
  let u := strings_TrimSpace unit in
  if String.eqb u "" then "ether" else strings_ToLower u.

(** The two case comparisons of the loop, on an address byte. *)
Definition upper_fixed (c : ascii) : bool :=
  String.eqb (strings_ToUpper (string_of_byte c)) (string_of_byte c).
Definition lower_fixed (c : ascii) : bool :=
  String.eqb (strings_ToLower (string_of_byte c)) (string_of_byte c).

(** The checksum test as the specification words it (EIP-55): over the
    address without its prefix and the hex digits of the Keccak-256
    digest of its lowercased text, a nibble above 7 wants an uppercase
    character and any other nibble a lowercase one, at each of the first
    [n] positions. *)
Fixpoint spec_positions (digest addr : string) (n : nat) {struct n} : bool :=
  match n with
  | O => true
  | S n' =>
      match digest, addr with
      | String h digest', String c addr' =>
          (if (7 <? digit_val h)%N then upper_fixed c else lower_fixed c)
          && spec_positions digest' addr' n'
      | _, _ => false
      end
  end.

Definition spec_isChecksumAddress (s : string) : bool :=
  let addr := strip_0x s in
  spec_positions (hex_of_bytes (sha3_Keccak256 (strings_ToLower addr))) addr 40.

End Chain3.

(** An instance of the collaborators for running the model: Unicode
    paths as the identity, a constant 32-byte digest, "0x"-prefixed
    hex. *)
Definition sample_lib : GoLibrary := {|
  unicode_ToLower := fun s => s;
  unicode_ToUpper := fun s => s;
  unicode_TrimSpace := fun s => s;
  sha3_Keccak256 := fun _ => "0123456789abcdef0123456789abcdef";
  common_BytesToHex := fun b => "0x" ++ hex_of_bytes b;
  common_HexToBytes := fun s => s;
  json_Marshal := fun _ => None;
  json_Unmarshal_Encoding := fun _ => None;
  Rat_Float64bits := fun _ => 0%N;
  Int_SetString_failed := fun _ _ => 0
|}.

(** ** The remaining functions of [chain3.go] *)

(** [n] copies of a byte. *)
Fixpoint repeat_byte (c : ascii) (n : nat) : string :=
  match n with
  | O => EmptyString
  | S n' => String c (repeat_byte c n')
  end.

Fixpoint string_bytes (s : string) : list ascii :=
  match s with
  | EmptyString => []
  | String c s' => c :: string_bytes s'
  end.

(** [bytes.Trim(b, "\x00")]: the NUL bytes at both ends go. *)
Definition is_NUL (c : ascii) : bool := (N_of_ascii c =? 0)%N.

Fixpoint trimLeftByte (p : ascii -> bool) (s : string) : string :=
  match s with
  | EmptyString => EmptyString
  | String c s' => if p c then trimLeftByte p s' else s
  end.

Fixpoint trimRightByte (p : ascii -> bool) (s : string) : string :=
  match s with
  | EmptyString => EmptyString
  | String c s' =>
      match trimRightByte p s' with
      | EmptyString => if p c then EmptyString else String c EmptyString
      | r => String c r
      end
  end.

Definition bytes_Trim_NUL (b : string) : string :=
  trimLeftByte is_NUL (trimRightByte is_NUL b).

(** A Go [int] of [w] bits: results wrap around in two's complement. *)
Definition int_wrap (w z : Z) : Z := (z + 2 ^ (w - 1)) mod 2 ^ w - 2 ^ (w - 1).
Definition int_range (w z : Z) : Prop := - 2 ^ (w - 1) <= z < 2 ^ (w - 1).

(** [x.String()] of a [*big.Rat]: "a/b", also when b is 1. *)
Definition Rat_String (x : Qc) : string :=
  Int_String (Qnum (this x)) ++ "/" ++ Int_String (Zpos (Qden (this x))).


(** More library code outside the repository sources: [strconv.Unquote]
    ([None] for an error), the runes a [range] loop reads from a string
    with a byte above 0x7f, and the width of [int] on the platform. *)
Class GoRuntime : Type := {
  strconv_Unquote : string -> option string;
  utf8_runes : string -> list N;
  strconv_IntSize : Z
}.

(** The packages [provider] and the request manager, Mc and Net APIs
    of package [chain3] that [NewChain3] wires together. *)
Class Chain3Deps : Type := {
  Provider : Type;
  RequestManager : Type;
  McAPI : Type;
  NetAPI : Type;
  NewRequestManager : Provider -> RequestManager;
  newMoacAPI : RequestManager -> McAPI;
  newNetAPI : RequestManager -> NetAPI
}.

Section Chain3Conversions.
Context {lib : GoLibrary} {rt : GoRuntime}.


Definition ToASCII (hexString : string) : string :=
  bytes_Trim_NUL (common_HexToBytes hexString).

(** The runes of [for _, runeValue := range s]: the bytes of an ASCII
    string. *)
Definition string_runes (s : string) : list N :=
  if isASCII s then map N_of_ascii (string_bytes s) else utf8_runes s.

Definition FromASCII (textString : string) (padding : Z) : string :=
  let hex :=
    fold_left (fun hex runeValue => hex ++ fmt_Sprintf_x runeValue)
              (string_runes textString) EmptyString in
  let l := Z.of_nat (String.length hex) in
  let bound := int_wrap strconv_IntSize (int_wrap strconv_IntSize (padding * 2) - l) in
  "0x" ++ hex ++ repeat_byte "0" (Z.to_nat bound).

Definition ToDecimal (value : value) : result string :=
  match ToBigNumber value with
  | None => Panic NilDereference
  | Some n =>
      if Rat_IsInt n then Ok (Int_String (Rat_Num n))
      else Ok (Rat_String n)
  end.

End Chain3Conversions.

(** *** The [Chain3] object *)

Section Chain3Object.
Context {deps : Chain3Deps}.

Record Chain3 : Type := {
  provider : Provider;
  requestManager : RequestManager;
  Mc : McAPI;
  Net : NetAPI
}.

Definition NewChain3 (provider : Provider) : Chain3 :=
  let requestManager := NewRequestManager provider in
  {| provider := provider;
     requestManager := requestManager;
     Mc := newMoacAPI requestManager;
     Net := newNetAPI requestManager |}.

Definition IsConnected (chain3 : Chain3) : bool := true.

(** Methods on the pointer receiver return the updated object. *)
Definition SetProvider (chain3 : Chain3) (p : Provider) : Chain3 :=
  {| provider := p;
     requestManager := requestManager chain3;
     Mc := Mc chain3;
     Net := Net chain3 |}.

Definition CurrentProvider (chain3 : Chain3) : Provider := provider chain3.

Definition CurrentRequestManager (chain3 : Chain3) : RequestManager :=
  requestManager chain3.

Definition Reset (chain3 : Chain3) (keepSyncing : bool) : Chain3 := chain3.

(** A call of one of the two mutating methods, and a run of them. *)
Inductive chain3_call : Type :=
| CallSetProvider (p : Provider)
| CallReset (keepSyncing : bool).

Definition chain3_step (chain3 : Chain3) (c : chain3_call) : Chain3 :=
  match c with
  | CallSetProvider p => SetProvider chain3 p
  | CallReset keepSyncing => Reset chain3 keepSyncing
  end.

Definition chain3_run (chain3 : Chain3) (calls : list chain3_call) : Chain3 :=
  fold_left chain3_step calls chain3.

(** The provider set by the last [SetProvider] of a run, if any. *)
Fixpoint last_provider (calls : list chain3_call) (p0 : Provider) : Provider :=
  match calls with
  | [] => p0
  | CallSetProvider p :: calls' => last_provider calls' p
  | CallReset _ :: calls' => last_provider calls' p0
  end.

End Chain3Object.

(** An instance whose digest text is sixty-four letters f without a
    prefix, and a 64-bit platform without Unicode input. *)
Definition bare_lib : GoLibrary := {|
  unicode_ToLower := fun s => s;
  unicode_ToUpper := fun s => s;
  unicode_TrimSpace := fun s => s;
  sha3_Keccak256 := fun _ => repeat_byte (ascii_of_N 255) 32;
  common_BytesToHex := fun b => hex_of_bytes b;
  common_HexToBytes := fun s => s;
  json_Marshal := fun _ => None;
  json_Unmarshal_Encoding := fun _ => None;
  Rat_Float64bits := fun _ => 0%N;
  Int_SetString_failed := fun _ _ => 0
|}.

Definition sample_rt : GoRuntime := {|
  strconv_Unquote := fun _ => None;
  utf8_runes := fun _ => [];
  strconv_IntSize := 64
|}.

Definition sample_deps : Chain3Deps := {|
  Provider := nat;
  RequestManager := nat;
  McAPI := nat;
  NetAPI := nat;
  NewRequestManager := fun p => p;
  newMoacAPI := fun rm => rm;
  newNetAPI := fun rm => rm
|}.

(** ** The mock node of package [test] ([test/mock_mc.go]) *)

(** What the mock takes from packages [rpc], [common] and [fmt]: the
    types of requests, responses, errors, hashes and addresses, the
    constructors of the last two, the field lookup of a request and the
    error of a formatted message. *)
Class MockDeps : Type := {
  rpc_RPC : Type;
  rpc_Request : Type;
  rpc_Response : Type;
  go_error : Type;
  common_Hash : Type;
  common_Address : Type;
  common_NewHash : string -> common_Hash;
  common_NewAddress : string -> common_Address;
  request_Get : rpc_Request -> string -> value;
  fmt_Errorf : string -> go_error
}.

(** The case labels of the switch in [Do], in source order. *)
Definition mock_methods : list string := [
  "mc_protocolVersion";
  "mc_syncing";
  "mc_coinbase";
  "mc_mining";
  "mc_hashrate";
  "mc_gasPrice";
  "mc_accounts";
  "mc_blockNumber";
  "mc_getBalance";
  "mc_getStorageAt";
  "mc_getTransactionCount";
  "mc_getBlockTransactionCountByHash";
  "mc_getBlockTransactionCountByNumber";
  "mc_getUncleCountByBlockHash";
  "mc_getUncleCountByBlockNumber";
  "mc_getCode";
  "mc_sign";
  "mc_sendTransaction";
  "mc_sendRawTransaction";
  "mc_call";
  "mc_estimateGas";
  "mc_getBlockByHash";
  "mc_getBlockByNumber";
  "mc_getTransactionByHash";
  "mc_getTransactionByBlockHashAndIndex";
  "mc_getTransactionByBlockNumberAndIndex";
  "mc_getTransactionReceipt";
  "mc_getUncleByBlockHashAndIndex";
  "mc_getUncleByBlockNumberAndIndex";
  "mc_getCompilers";
  "mc_newFilter";
  "mc_newBlockFilter";
  "mc_newPendingTransactionFilter";
  "mc_uninstallFilter";
  "mc_getFilterChanges";
  "mc_getFilterLogs";
  "mc_getLogs";
  "mc_getWork";
  "mc_submitWork"
].

Section MockMcAPI.
Context {lib : GoLibrary} {mock : MockDeps}.

(** The fields the struct literals of the mock set. *)
Record Topic : Type := { Topic_Data : string }.

Record Log : Type := {
  Log_LogIndex : Z;
  Log_BlockNumber : Z;
  Log_BlockHash : common_Hash;
  Log_TransactionHash : common_Hash;
  Log_TransactionIndex : Z;
  Log_Address : common_Address;
  Log_Data : string;
  Log_Topics : list Topic
}.

Record Block : Type := {
  Block_Number : Z;
  Block_Hash : common_Hash;
  Block_ParentHash : common_Hash;
  Block_Nonce : common_Hash;
  Block_Sha3Uncles : common_Hash;
  Block_Bloom : common_Hash;
  Block_TransactionRoot : common_Hash;
  Block_StateRoot : common_Hash;
  Block_Miner : common_Address;
  Block_Difficulty : Z;
  Block_TotalDifficulty : Z;
  Block_ExtraData : common_Hash;
  Block_Size : Z;
  Block_GasLimit : Z;
  Block_GasUsed : Z;
  Block_Timestamp : Z;
  Block_Transactions : list common_Hash;
  Block_Uncles : list common_Hash
}.

Record Transaction : Type := {
  Transaction_Hash : common_Hash;
  Transaction_Nonce : common_Hash;
  Transaction_BlockHash : common_Hash;
  Transaction_BlockNumber : Z;
  Transaction_TransactionIndex : Z;
  Transaction_From : common_Address;
  Transaction_To : common_Address;
  Transaction_Value : Z;
  Transaction_Gas : Z;
  Transaction_GasPrice : Z;
  Transaction_Data : string
}.

Record TransactionReceipt : Type := {
  TransactionReceipt_Hash : common_Hash;
  TransactionReceipt_TransactionIndex : Z;
  TransactionReceipt_BlockNumber : Z;
  TransactionReceipt_BlockHash : common_Hash;
  TransactionReceipt_CumulativeGasUsed : Z;
  TransactionReceipt_GasUsed : Z;
  TransactionReceipt_ContractAddress : common_Address;
  TransactionReceipt_Logs : list Log
}.

(** The values handed to [generateResponse]. *)
Inductive payload : Type :=
| PString (v : string)
| PBool (v : bool)
| PStrings (v : list string)
| PBlock (v : Block)
| PTransaction (v : Transaction)
| PReceipt (v : TransactionReceipt)
| PLogs (v : list Log).

(** What a call of [Do] ends in: the pair it returns, or the panic of
    the type assertion on the method field. *)
Inductive do_outcome : Type :=
| DoReturn (r : option rpc_Response * option go_error)
| DoPanic.

(** [generateResponse] lives in another file of package [test]. *)
Variable generateResponse :
  rpc_RPC -> rpc_Request -> payload -> option rpc_Response * option go_error.

Definition Do (mc_rpc : rpc_RPC) (request : rpc_Request) : do_outcome :=
  match request_Get request "method" with
  | VString method =>
      if String.eqb method "mc_protocolVersion" then
        DoReturn (generateResponse mc_rpc request (PString "54"))
      else
      if String.eqb method "mc_syncing" then
        DoReturn (generateResponse mc_rpc request (PBool false))
      else
      if String.eqb method "mc_coinbase" then
        DoReturn (generateResponse mc_rpc request (PString "0x407d73d8a49eeb85d32cf465507dd71d507100c1"))
      else
      if String.eqb method "mc_mining" then
        DoReturn (generateResponse mc_rpc request (PBool true))
      else
      if String.eqb method "mc_hashrate" then
        DoReturn (generateResponse mc_rpc request (PString "0x38a"))
      else
      if String.eqb method "mc_gasPrice" then
        DoReturn (generateResponse mc_rpc request (PString "0x09184e72a000"))
      else
      if String.eqb method "mc_accounts" then
        DoReturn (generateResponse mc_rpc request (PStrings ["0x407d73d8a49eeb85d32cf465507dd71d507100c1";
        "0x407d73d8a49ee783afd32cf465507dd71d507100"]))
      else
      if String.eqb method "mc_blockNumber" then
        DoReturn (generateResponse mc_rpc request (PString "0x4b7"))
      else
      if String.eqb method "mc_getBalance" then
        DoReturn (generateResponse mc_rpc request (PString "0x0234c8a3397aab58"))
      else
      if String.eqb method "mc_getStorageAt" then
        DoReturn (generateResponse mc_rpc request (PString "0x03"))
      else
      if String.eqb method "mc_getTransactionCount" then
        DoReturn (generateResponse mc_rpc request (PString "0x1"))
      else
      if String.eqb method "mc_getBlockTransactionCountByHash" then
        DoReturn (generateResponse mc_rpc request (PString "0xb"))
      else
      if String.eqb method "mc_getBlockTransactionCountByNumber" then
        DoReturn (generateResponse mc_rpc request (PString "0xa"))
      else
      if String.eqb method "mc_getUncleCountByBlockHash" then
        DoReturn (generateResponse mc_rpc request (PString "0x1"))
      else
      if String.eqb method "mc_getUncleCountByBlockNumber" then
        DoReturn (generateResponse mc_rpc request (PString "0x1"))
      else
      if String.eqb method "mc_getCode" then
        DoReturn (generateResponse mc_rpc request (PString "0x600160008035811a818181146012578301005b601b6001356025565b8060005260206000f25b600060078202905091905056"))
      else
      if String.eqb method "mc_sign" then
        DoReturn (generateResponse mc_rpc request (PString "0x2ac19db245478a06032e69cdbd2b54e648b78431d0a47bd1fbab18f79f820ba407466e37adbe9e84541cab97ab7d290f4a64a5825c876d22109f3bf813254e8601"))
      else
      if String.eqb method "mc_sendTransaction" then
        DoReturn (generateResponse mc_rpc request (PString "0xe670ec64341771606e55d6b4ca35a1a6b75ee3d5145a99d05921026d1527331"))
      else
      if String.eqb method "mc_sendRawTransaction" then
        DoReturn (generateResponse mc_rpc request (PString "0xe670ec64341771606e55d6b4ca35a1a6b75ee3d5145a99d05921026d1527331"))
      else
      if String.eqb method "mc_call" then
        DoReturn (generateResponse mc_rpc request (PString "0x"))
      else
      if String.eqb method "mc_estimateGas" then
        DoReturn (generateResponse mc_rpc request (PString "0x5208"))
      else
      if String.eqb method "mc_getBlockByHash" then
        DoReturn (generateResponse mc_rpc request (PBlock
        {| Block_Number := 0x1b4;
           Block_Hash := (common_NewHash (common_HexToBytes "0xe670ec64341771606e55d6b4ca35a1a6b75ee3d5145a99d05921026d1527331"));
           Block_ParentHash := (common_NewHash (common_HexToBytes "0x9646252be9520f6e71339a8df9c55e4d7619deeb018d2a3f2d21fc165dde5eb5"));
           Block_Nonce := (common_NewHash (common_HexToBytes "0xe04d296d2460cfb8472af2c5fd05b5a214109c25688d3704aed5484f9a7792f2"));
           Block_Sha3Uncles := (common_NewHash (common_HexToBytes "0x1dcc4de8dec75d7aab85b567b6ccd41ad312451b948a7413f0a142fd40d49347"));
           Block_Bloom := (common_NewHash (common_HexToBytes "0xe670ec64341771606e55d6b4ca35a1a6b75ee3d5145a99d05921026d1527331"));
           Block_TransactionRoot := (common_NewHash (common_HexToBytes "0x56e81f171bcc55a6ff8345e692c0f86e5b48e01b996cadc001622fb5e363b421"));
           Block_StateRoot := (common_NewHash (common_HexToBytes "0xd5855eb08b3387c0af375e9cdb6acfc05eb8f519e419b874b6ff2ffda7ed1dff"));
           Block_Miner := (common_NewAddress (common_HexToBytes "0x4e65fda2159562a496f9f3522f89122a3088497a"));
           Block_Difficulty := 0x027f07;
           Block_TotalDifficulty := 0x027f07;
           Block_ExtraData := (common_NewHash (common_HexToBytes "0x0000000000000000000000000000000000000000000000000000000000000000"));
           Block_Size := 0x027f07;
           Block_GasLimit := 0x9f759;
           Block_GasUsed := 0x9f759;
           Block_Timestamp := 0x54e34e8e;
           Block_Transactions := [];
           Block_Uncles := [] |}))
      else
      if String.eqb method "mc_getBlockByNumber" then
        DoReturn (generateResponse mc_rpc request (PBlock
        {| Block_Number := 0x1b4;
           Block_Hash := (common_NewHash (common_HexToBytes "0xe670ec64341771606e55d6b4ca35a1a6b75ee3d5145a99d05921026d1527331"));
           Block_ParentHash := (common_NewHash (common_HexToBytes "0x9646252be9520f6e71339a8df9c55e4d7619deeb018d2a3f2d21fc165dde5eb5"));
           Block_Nonce := (common_NewHash (common_HexToBytes "0xe04d296d2460cfb8472af2c5fd05b5a214109c25688d3704aed5484f9a7792f2"));
           Block_Sha3Uncles := (common_NewHash (common_HexToBytes "0x1dcc4de8dec75d7aab85b567b6ccd41ad312451b948a7413f0a142fd40d49347"));
           Block_Bloom := (common_NewHash (common_HexToBytes "0xe670ec64341771606e55d6b4ca35a1a6b75ee3d5145a99d05921026d1527331"));
           Block_TransactionRoot := (common_NewHash (common_HexToBytes "0x56e81f171bcc55a6ff8345e692c0f86e5b48e01b996cadc001622fb5e363b421"));
           Block_StateRoot := (common_NewHash (common_HexToBytes "0xd5855eb08b3387c0af375e9cdb6acfc05eb8f519e419b874b6ff2ffda7ed1dff"));
           Block_Miner := (common_NewAddress (common_HexToBytes "0x4e65fda2159562a496f9f3522f89122a3088497a"));
           Block_Difficulty := 0x027f07;
           Block_TotalDifficulty := 0x027f07;
           Block_ExtraData := (common_NewHash (common_HexToBytes "0x0000000000000000000000000000000000000000000000000000000000000000"));
           Block_Size := 0x027f07;
           Block_GasLimit := 0x9f759;
           Block_GasUsed := 0x9f759;
           Block_Timestamp := 0x54e34e8e;
           Block_Transactions := [];
           Block_Uncles := [] |}))
      else
      if String.eqb method "mc_getTransactionByHash" then
        DoReturn (generateResponse mc_rpc request (PTransaction
        {| Transaction_Hash := (common_NewHash (common_HexToBytes "0xc6ef2fc5426d6ad6fd9e2a26abeab0aa2411b7ab17f30a99d3cb96aed1d1055b"));
           Transaction_Nonce := (common_NewHash (common_HexToBytes "0x"));
           Transaction_BlockHash := (common_NewHash (common_HexToBytes "0xbeab0aa2411b7ab17f30a99d3cb9c6ef2fc5426d6ad6fd9e2a26a6aed1d1055b"));
           Transaction_BlockNumber := 0x15df;
           Transaction_TransactionIndex := 0x1;
           Transaction_From := (common_NewAddress (common_HexToBytes "0x407d73d8a49eeb85d32cf465507dd71d507100c1"));
           Transaction_To := (common_NewAddress (common_HexToBytes "0x85h43d8a49eeb85d32cf465507dd71d507100c1"));
           Transaction_Value := 0x7f110;
           Transaction_Gas := 0x7f110;
           Transaction_GasPrice := 0x09184e72a000;
           Transaction_Data := (common_HexToBytes "0x603880600c6000396000f300603880600c6000396000f3603880600c6000396000f360") |}))
      else
      if String.eqb method "mc_getTransactionByBlockHashAndIndex" then
        DoReturn (generateResponse mc_rpc request (PTransaction
        {| Transaction_Hash := (common_NewHash (common_HexToBytes "0xc6ef2fc5426d6ad6fd9e2a26abeab0aa2411b7ab17f30a99d3cb96aed1d1055b"));
           Transaction_Nonce := (common_NewHash (common_HexToBytes "0x"));
           Transaction_BlockHash := (common_NewHash (common_HexToBytes "0xbeab0aa2411b7ab17f30a99d3cb9c6ef2fc5426d6ad6fd9e2a26a6aed1d1055b"));
           Transaction_BlockNumber := 0x15df;
           Transaction_TransactionIndex := 0x1;
           Transaction_From := (common_NewAddress (common_HexToBytes "0x407d73d8a49eeb85d32cf465507dd71d507100c1"));
           Transaction_To := (common_NewAddress (common_HexToBytes "0x85h43d8a49eeb85d32cf465507dd71d507100c1"));
           Transaction_Value := 0x7f110;
           Transaction_Gas := 0x7f110;
           Transaction_GasPrice := 0x09184e72a000;
           Transaction_Data := (common_HexToBytes "0x603880600c6000396000f300603880600c6000396000f3603880600c6000396000f360") |}))
      else
      if String.eqb method "mc_getTransactionByBlockNumberAndIndex" then
        DoReturn (generateResponse mc_rpc request (PTransaction
        {| Transaction_Hash := (common_NewHash (common_HexToBytes "0xc6ef2fc5426d6ad6fd9e2a26abeab0aa2411b7ab17f30a99d3cb96aed1d1055b"));
           Transaction_Nonce := (common_NewHash (common_HexToBytes "0x"));
           Transaction_BlockHash := (common_NewHash (common_HexToBytes "0xbeab0aa2411b7ab17f30a99d3cb9c6ef2fc5426d6ad6fd9e2a26a6aed1d1055b"));
           Transaction_BlockNumber := 0x15df;
           Transaction_TransactionIndex := 0x1;
           Transaction_From := (common_NewAddress (common_HexToBytes "0x407d73d8a49eeb85d32cf465507dd71d507100c1"));
           Transaction_To := (common_NewAddress (common_HexToBytes "0x85h43d8a49eeb85d32cf465507dd71d507100c1"));
           Transaction_Value := 0x7f110;
           Transaction_Gas := 0x7f110;
           Transaction_GasPrice := 0x09184e72a000;
           Transaction_Data := (common_HexToBytes "0x603880600c6000396000f300603880600c6000396000f3603880600c6000396000f360") |}))
      else
      if String.eqb method "mc_getTransactionReceipt" then
        DoReturn (generateResponse mc_rpc request (PReceipt
        {| TransactionReceipt_Hash := (common_NewHash (common_HexToBytes "0xb903239f8543d04b5dc1ba6579132b143087c68db1b2168786408fcbce568238"));
           TransactionReceipt_TransactionIndex := 0x1;
           TransactionReceipt_BlockNumber := 0xb;
           TransactionReceipt_BlockHash := (common_NewHash (common_HexToBytes "0xc6ef2fc5426d6ad6fd9e2a26abeab0aa2411b7ab17f30a99d3cb96aed1d1055b"));
           TransactionReceipt_CumulativeGasUsed := 0x33bc;
           TransactionReceipt_GasUsed := 0x4dc;
           TransactionReceipt_ContractAddress := (common_NewAddress (common_HexToBytes "0xb60e8dd61c5d32be8058bb8eb970870f07233155"));
           TransactionReceipt_Logs := [] |}))
      else
      if String.eqb method "mc_getUncleByBlockHashAndIndex" then
        DoReturn (generateResponse mc_rpc request (PBlock
        {| Block_Number := 0x1b4;
           Block_Hash := (common_NewHash (common_HexToBytes "0xe670ec64341771606e55d6b4ca35a1a6b75ee3d5145a99d05921026d1527331"));
           Block_ParentHash := (common_NewHash (common_HexToBytes "0x9646252be9520f6e71339a8df9c55e4d7619deeb018d2a3f2d21fc165dde5eb5"));
           Block_Nonce := (common_NewHash (common_HexToBytes "0xe04d296d2460cfb8472af2c5fd05b5a214109c25688d3704aed5484f9a7792f2"));
           Block_Sha3Uncles := (common_NewHash (common_HexToBytes "0x1dcc4de8dec75d7aab85b567b6ccd41ad312451b948a7413f0a142fd40d49347"));
           Block_Bloom := (common_NewHash (common_HexToBytes "0xe670ec64341771606e55d6b4ca35a1a6b75ee3d5145a99d05921026d1527331"));
           Block_TransactionRoot := (common_NewHash (common_HexToBytes "0x56e81f171bcc55a6ff8345e692c0f86e5b48e01b996cadc001622fb5e363b421"));
           Block_StateRoot := (common_NewHash (common_HexToBytes "0xd5855eb08b3387c0af375e9cdb6acfc05eb8f519e419b874b6ff2ffda7ed1dff"));
           Block_Miner := (common_NewAddress (common_HexToBytes "0x4e65fda2159562a496f9f3522f89122a3088497a"));
           Block_Difficulty := 0x027f07;
           Block_TotalDifficulty := 0x027f07;
           Block_ExtraData := (common_NewHash (common_HexToBytes "0x0000000000000000000000000000000000000000000000000000000000000000"));
           Block_Size := 0x027f07;
           Block_GasLimit := 0x9f759;
           Block_GasUsed := 0x9f759;
           Block_Timestamp := 0x54e34e8e;
           Block_Transactions := [];
           Block_Uncles := [] |}))
      else
      if String.eqb method "mc_getUncleByBlockNumberAndIndex" then
        DoReturn (generateResponse mc_rpc request (PBlock
        {| Block_Number := 0x1b4;
           Block_Hash := (common_NewHash (common_HexToBytes "0xe670ec64341771606e55d6b4ca35a1a6b75ee3d5145a99d05921026d1527331"));
           Block_ParentHash := (common_NewHash (common_HexToBytes "0x9646252be9520f6e71339a8df9c55e4d7619deeb018d2a3f2d21fc165dde5eb5"));
           Block_Nonce := (common_NewHash (common_HexToBytes "0xe04d296d2460cfb8472af2c5fd05b5a214109c25688d3704aed5484f9a7792f2"));
           Block_Sha3Uncles := (common_NewHash (common_HexToBytes "0x1dcc4de8dec75d7aab85b567b6ccd41ad312451b948a7413f0a142fd40d49347"));
           Block_Bloom := (common_NewHash (common_HexToBytes "0xe670ec64341771606e55d6b4ca35a1a6b75ee3d5145a99d05921026d1527331"));
           Block_TransactionRoot := (common_NewHash (common_HexToBytes "0x56e81f171bcc55a6ff8345e692c0f86e5b48e01b996cadc001622fb5e363b421"));
           Block_StateRoot := (common_NewHash (common_HexToBytes "0xd5855eb08b3387c0af375e9cdb6acfc05eb8f519e419b874b6ff2ffda7ed1dff"));
           Block_Miner := (common_NewAddress (common_HexToBytes "0x4e65fda2159562a496f9f3522f89122a3088497a"));
           Block_Difficulty := 0x027f07;
           Block_TotalDifficulty := 0x027f07;
           Block_ExtraData := (common_NewHash (common_HexToBytes "0x0000000000000000000000000000000000000000000000000000000000000000"));
           Block_Size := 0x027f07;
           Block_GasLimit := 0x9f759;
           Block_GasUsed := 0x9f759;
           Block_Timestamp := 0x54e34e8e;
           Block_Transactions := [];
           Block_Uncles := [] |}))
      else
      if String.eqb method "mc_getCompilers" then
        DoReturn (generateResponse mc_rpc request (PStrings ["solidity"; "lll"; "serpent"]))
      else
      if String.eqb method "mc_newFilter" then
        DoReturn (generateResponse mc_rpc request (PString "0x1"))
      else
      if String.eqb method "mc_newBlockFilter" then
        DoReturn (generateResponse mc_rpc request (PString "0x1"))
      else
      if String.eqb method "mc_newPendingTransactionFilter" then
        DoReturn (generateResponse mc_rpc request (PString "0x1"))
      else
      if String.eqb method "mc_uninstallFilter" then
        DoReturn (generateResponse mc_rpc request (PBool true))
      else
      if String.eqb method "mc_getFilterChanges" then
        DoReturn (generateResponse mc_rpc request (PLogs
        [{| Log_LogIndex := 0x1;
            Log_BlockNumber := 0x1b4;
            Log_BlockHash := (common_NewHash (common_HexToBytes "0x8216c5785ac562ff41e2dcfdf5785ac562ff41e2dcfdf829c5a142f1fccd7d"));
            Log_TransactionHash := (common_NewHash (common_HexToBytes "0xdf829c5a142f1fccd7d8216c5785ac562ff41e2dcfdf5785ac562ff41e2dcf"));
            Log_TransactionIndex := 0;
            Log_Address := (common_NewAddress (common_HexToBytes "0x16c5785ac562ff41e2dcfdf829c5a142f1fccd7d"));
            Log_Data := "0000000000000000000000000000000000000000000000000000000000000000";
            Log_Topics := [{| Topic_Data := (common_HexToBytes "0x59ebeb90bc63057b6515673c3ecf9438e5058bca0f92585014eced636878c9a5") |}] |}]))
      else
      if String.eqb method "mc_getFilterLogs" then
        DoReturn (generateResponse mc_rpc request (PLogs
        [{| Log_LogIndex := 0x1;
            Log_BlockNumber := 0x1b4;
            Log_BlockHash := (common_NewHash (common_HexToBytes "0x8216c5785ac562ff41e2dcfdf5785ac562ff41e2dcfdf829c5a142f1fccd7d"));
            Log_TransactionHash := (common_NewHash (common_HexToBytes "0xdf829c5a142f1fccd7d8216c5785ac562ff41e2dcfdf5785ac562ff41e2dcf"));
            Log_TransactionIndex := 0;
            Log_Address := (common_NewAddress (common_HexToBytes "0x16c5785ac562ff41e2dcfdf829c5a142f1fccd7d"));
            Log_Data := "0000000000000000000000000000000000000000000000000000000000000000";
            Log_Topics := [{| Topic_Data := (common_HexToBytes "0x59ebeb90bc63057b6515673c3ecf9438e5058bca0f92585014eced636878c9a5") |}] |}]))
      else
      if String.eqb method "mc_getLogs" then
        DoReturn (generateResponse mc_rpc request (PLogs
        [{| Log_LogIndex := 0x1;
            Log_BlockNumber := 0x1b4;
            Log_BlockHash := (common_NewHash (common_HexToBytes "0x8216c5785ac562ff41e2dcfdf5785ac562ff41e2dcfdf829c5a142f1fccd7d"));
            Log_TransactionHash := (common_NewHash (common_HexToBytes "0xdf829c5a142f1fccd7d8216c5785ac562ff41e2dcfdf5785ac562ff41e2dcf"));
            Log_TransactionIndex := 0;
            Log_Address := (common_NewAddress (common_HexToBytes "0x16c5785ac562ff41e2dcfdf829c5a142f1fccd7d"));
            Log_Data := "0000000000000000000000000000000000000000000000000000000000000000";
            Log_Topics := [{| Topic_Data := (common_HexToBytes "0x59ebeb90bc63057b6515673c3ecf9438e5058bca0f92585014eced636878c9a5") |}] |}]))
      else
      if String.eqb method "mc_getWork" then
        DoReturn (generateResponse mc_rpc request (PStrings ["0x1234567890abcdef1234567890abcdef1234567890abcdef1234567890abcdef";
        "0x5EED00000000000000000000000000005EED0000000000000000000000000000";
        "0xd1ff1c01710000000000000000000000d1ff1c01710000000000000000000000"]))
      else
      if String.eqb method "mc_submitWork" then
        DoReturn (generateResponse mc_rpc request (PBool true))
      else
      DoReturn (None, Some (fmt_Errorf ("Invalid method " ++ method)))
  | _ => DoPanic
  end.

End MockMcAPI.

(** A mock environment whose requests are their method names. *)
Definition sample_mock : MockDeps := {|
  rpc_RPC := unit;
  rpc_Request := string;
  rpc_Response := string;
  go_error := string;
  common_Hash := string;
  common_Address := string;
  common_NewHash := fun b => b;
  common_NewAddress := fun b => b;
  request_Get := fun request _ => VString request;
  fmt_Errorf := fun msg => msg
|}.

Definition sample_generateResponse
  (r : @rpc_RPC sample_mock) (request : @rpc_Request sample_mock)
  (v : @payload sample_mock)
  : option (@rpc_Response sample_mock) * option (@go_error sample_mock) :=
  (Some request, None).

(** * Properties *)

(** ** Bytes *)

Ltac each_byte c := destruct c as [[] [] [] [] [] [] [] []].

Lemma ascii_lower_idem c : ascii_lower (ascii_lower c) = ascii_lower c.
Proof. each_byte c; reflexivity. Qed.

Lemma ascii_lower_7bit c : byte_lt (ascii_lower c) 128 = byte_lt c 128.
Proof. each_byte c; reflexivity. Qed.

Lemma ascii_lower_space c : asciiSpace (ascii_lower c) = asciiSpace c.
Proof. each_byte c; reflexivity. Qed.

Lemma digit_char_lower c :
  (digit_val c <? 36)%N = true -> digit_char (digit_val c) = ascii_lower c.
Proof. each_byte c; intros H; try discriminate H; reflexivity. Qed.

Lemma digit_val_zero c : digit_val c = 0%N -> c = "0"%char.
Proof. each_byte c; intros H; try discriminate H; reflexivity. Qed.

Lemma digit_val_not_x c : (digit_val c <? 16)%N = true -> Ascii.eqb c "x" = false.
Proof. each_byte c; intros H; try discriminate H; reflexivity. Qed.

Lemma small_N_cases (P : N -> Prop) (bound : nat) :
  (forall k, (k < bound)%nat -> P (N.of_nat k)) ->
  forall d, (d < N.of_nat bound)%N -> P d.
Proof.
  intros HP d Hd. rewrite <- (N2Nat.id d). apply HP. lia.
Qed.

Lemma digit_val_char d : (d < 36)%N -> digit_val (digit_char d) = d.
Proof.
  revert d. apply (small_N_cases _ 36). intros k Hk.
  do 36 (destruct k as [|k]; [reflexivity|]). lia.
Qed.


Lemma digit_char_plain d :
  (d < 16)%N ->
  Ascii.eqb (digit_char d) "x" = false /\ Ascii.eqb (digit_char d) "-" = false
  /\ Ascii.eqb (digit_char d) "+" = false.
Proof.
  revert d. apply (small_N_cases _ 16). intros k Hk.
  do 16 (destruct k as [|k]; [repeat split; reflexivity|]). lia.
Qed.

(** ** Positional numerals *)

Section Numerals.
Variable base : N.
Hypothesis base_lo : (2 <= base)%N.

Lemma digits_value_app acc ds1 ds2 :
  digits_value base acc (ds1 ++ ds2) = digits_value base (digits_value base acc ds1) ds2.
Proof. apply fold_left_app. Qed.

Lemma digits_value_ge acc ds : (acc <= digits_value base acc ds)%N.
Proof.
  revert acc. induction ds as [|d ds IH]; intros acc; simpl; [lia|].
  etransitivity; [|apply IH]. unfold shift_in. nia.
Qed.

Lemma scan_digits_value acc s n :
  scan_digits base acc s = Some n ->
  Forall (fun d => (d < base)%N) (digit_vals s) /\ n = digits_value base acc (digit_vals s).
Proof.
  revert acc. induction s as [|c s IH]; intros acc; simpl.
  - intros [= <-]. split; [constructor | reflexivity].
  - destruct (digit_val c <? base)%N eqn:Hc; [|discriminate].
    intros H. apply IH in H as [Hall ->]. split; [|reflexivity].
    constructor; [apply N.ltb_lt, Hc | exact Hall].
Qed.

Lemma scan_digits_string_of_digits acc ds :
  (base <= 36)%N -> Forall (fun d => (d < base)%N) ds ->
  scan_digits base acc (string_of_digits ds) = Some (digits_value base acc ds).
Proof.
  intros Hb Hall. revert acc.
  induction Hall as [|d ds Hd _ IH]; intros acc; simpl; [reflexivity|].
  rewrite digit_val_char by lia.
  apply N.ltb_lt in Hd. rewrite Hd. apply IH.
Qed.

Lemma digits_lsd_bounded fuel n :
  Forall (fun d => (d < base)%N) (digits_lsd fuel base n).
Proof.
  revert n. induction fuel as [|fuel IH]; intros n; simpl; [constructor|].
  destruct (n <? base)%N eqn:Hn.
  - apply N.ltb_lt in Hn. repeat constructor. exact Hn.
  - constructor; [apply N.mod_lt; lia | apply IH].
Qed.

Lemma half_bound fuel n :
  (base <= n)%N -> (n < 2 ^ N.of_nat (S fuel))%N ->
  (0 < n / base)%N /\ (n / base < 2 ^ N.of_nat fuel)%N.
Proof.
  intros Hbn Hn. split.
  - apply N.div_str_pos. lia.
  - rewrite Nat2N.inj_succ, N.pow_succ_r' in Hn.
    apply N.Div0.div_lt_upper_bound. nia.
Qed.

(** With enough fuel the digits denote the number. *)
Lemma digits_lsd_value fuel n :
  (n < 2 ^ N.of_nat fuel)%N -> (0 < fuel)%nat ->
  digits_value base 0 (rev (digits_lsd fuel base n)) = n.
Proof.
  revert n. induction fuel as [|fuel IH]; intros n Hn Hf; [lia|]. simpl.
  destruct (n <? base)%N eqn:Hnb.
  - simpl. unfold shift_in. lia.
  - apply N.ltb_ge in Hnb. simpl. rewrite digits_value_app. simpl.
    destruct (half_bound fuel n Hnb Hn) as [Hpos Hlt].
    rewrite IH; [| exact Hlt |].
    + unfold shift_in. rewrite N.mul_comm. symmetry. apply N.div_mod. lia.
    + destruct fuel; [simpl in Hlt; lia | lia].
Qed.

(** ... and they are the only canonical digit list that does. *)
Lemma digits_lsd_unique ds :
  Forall (fun d => (d < base)%N) ds -> canonical ds ->
  forall fuel, (digits_value base 0 ds < 2 ^ N.of_nat fuel)%N -> (0 < fuel)%nat ->
  digits_lsd fuel base (digits_value base 0 ds) = rev ds.
Proof.
  induction ds as [|d ds IH] using rev_ind; intros Hall Hcan fuel Hlt Hf.
  - destruct Hcan.
  - apply Forall_app in Hall as [Hall Hd]. inversion Hd as [|? ? Hdb _]; subst.
    rewrite rev_app_distr. simpl.
    assert (Hval : digits_value base 0 (ds ++ [d]) = (digits_value base 0 ds * base + d)%N).
    { rewrite digits_value_app. reflexivity. }
    rewrite Hval in *. clear Hval.
    destruct fuel as [|fuel]; [lia|]. simpl digits_lsd.
    destruct ds as [|d0 ds'].
    + apply N.ltb_lt in Hdb. unfold digits_value. simpl fold_left.
      rewrite N.mul_0_l, N.add_0_l, Hdb. reflexivity.
    + assert (Hcan' : canonical (d0 :: ds')).
      { simpl in Hcan |- *. destruct Hcan as [Hnz | Habs]; [left; exact Hnz|].
        destruct ds'; discriminate Habs. }
      assert (Hd0 : d0 <> 0%N).
      { simpl in Hcan. destruct Hcan as [Hnz | Habs]; [exact Hnz|].
        destruct ds'; discriminate Habs. }
      set (v := digits_value base 0 (d0 :: ds')) in *.
      assert (Hv : (1 <= v)%N).
      { subst v. simpl. pose proof (digits_value_ge (shift_in base 0 d0) ds') as Hge.
        unfold shift_in in Hge |- *. lia. }
      assert (Hge : (base <= v * base + d)%N) by nia.
      apply N.ltb_ge in Hge as Hge'. rewrite Hge'.
      assert (Hmod : ((v * base + d) mod base = d)%N).
      { rewrite N.add_comm, N.Div0.mod_add. apply N.mod_small. exact Hdb. }
      assert (Hdiv : ((v * base + d) / base = v)%N).
      { rewrite N.add_comm, N.div_add by lia. rewrite N.div_small by exact Hdb. lia. }
      rewrite Hmod, Hdiv. f_equal.
      destruct (half_bound fuel _ Hge Hlt) as [_ Hlt']. rewrite Hdiv in Hlt'.
      apply IH; [exact Hall | exact Hcan' | exact Hlt' |].
      destruct fuel; [simpl in Hlt'; lia | lia].
Qed.


End Numerals.

Lemma digits_fuel_enough n : (n < 2 ^ N.of_nat (digits_fuel n))%N /\ (0 < digits_fuel n)%nat.
Proof.
  unfold digits_fuel. split; [|lia].
  rewrite Nat2N.inj_succ, N2Nat.id.
  destruct n as [|p]; [reflexivity|].
  apply N.log2_spec. lia.
Qed.

(** ** Printing and scanning integers *)

Lemma string_of_digits_plain ds :
  Forall (fun d => (d < 16)%N) ds -> string_forall plain_byte (string_of_digits ds) = true.
Proof.
  induction 1 as [|d ds Hd _ IH]; simpl; [reflexivity|].
  destruct (digit_char_plain d Hd) as (Hx & Hm & Hp).
  unfold plain_byte at 1. rewrite Hx, Hm, Hp, IH. reflexivity.
Qed.

Lemma Forall_lt_le (b b' : N) ds :
  (b <= b')%N -> Forall (fun d => (d < b)%N) ds -> Forall (fun d => (d < b')%N) ds.
Proof. intros Hb H. induction H; constructor; [lia | assumption]. Qed.

Lemma nat_Text_plain base n :
  (2 <= base <= 16)%N -> string_forall plain_byte (nat_Text base n) = true.
Proof.
  intros [Hlo Hhi]. unfold nat_Text. apply string_of_digits_plain.
  apply (Forall_lt_le base); [exact Hhi|].
  apply Forall_rev, digits_lsd_bounded. exact Hlo.
Qed.

Lemma digits_lsd_nonempty fuel base n : digits_lsd (S fuel) base n <> [].
Proof. simpl. destruct (n <? base)%N; discriminate. Qed.

Lemma nat_Text_nonempty base n : exists c s, nat_Text base n = String c s.
Proof.
  unfold nat_Text, digits_fuel.
  pose proof (digits_lsd_nonempty (N.to_nat (N.log2 n)) base n) as Hne.
  destruct (digits_lsd _ base n) as [|d l] using rev_ind; [congruence|].
  rewrite rev_app_distr. simpl. eauto.
Qed.

(** Scanning a printed magnitude gives the magnitude back. *)
Lemma nat_Text_scan base n :
  (2 <= base <= 36)%N -> scan_mantissa base (nat_Text base n) = Some n.
Proof.
  intros [Hlo Hhi].
  destruct (nat_Text_nonempty base n) as (c & s & Heq).
  unfold scan_mantissa. rewrite Heq, <- Heq. unfold nat_Text.
  rewrite scan_digits_string_of_digits;
    [| exact Hlo | exact Hhi | apply Forall_rev, digits_lsd_bounded; exact Hlo].
  f_equal. destruct (digits_fuel_enough n) as [Hn Hf].
  apply digits_lsd_value; assumption.
Qed.

Lemma Int_SetString_plain c s base :
  plain_byte c = true ->
  Int_SetString (String c s) base = option_map Z.of_N (scan_mantissa base (String c s)).
Proof. each_byte c; intros H; try discriminate H; reflexivity. Qed.

(** [SetString] reads back what [Text] printed, in bases 2 to 16. *)
Lemma Int_SetString_Text x base :
  (2 <= base <= 16)%N -> Int_SetString (Int_Text x base) base = Some x.
Proof.
  intros Hb. unfold Int_Text. destruct (x <? 0) eqn:Hneg.
  - cbn [Int_SetString]. rewrite nat_Text_scan by lia. simpl. f_equal. lia.
  - destruct (nat_Text_nonempty base (Z.abs_N x)) as (c & s & Heq).
    pose proof (nat_Text_plain base (Z.abs_N x) Hb) as Hplain.
    pose proof (nat_Text_scan base (Z.abs_N x)) as Hscan.
    rewrite Heq in *. simpl in Hplain. apply andb_prop in Hplain as [Hc _].
    rewrite Int_SetString_plain by exact Hc.
    rewrite Hscan by lia. simpl. f_equal. lia.
Qed.

(** ** Prefixes and replacement *)

Lemma prefix_0x s :
  String.prefix "0x" s = true -> exists t, s = String "0" (String "x" t).
Proof.
  destruct s as [|a [|b t]]; cbn [String.prefix].
  - discriminate.
  - destruct (ascii_dec "0" a); discriminate.
  - destruct (ascii_dec "0" a) as [<-|]; [|discriminate].
    destruct (ascii_dec "x" b) as [<-|]; [|discriminate]. eauto.
Qed.

Lemma strings_Index_lower s sub : -1 <= strings_Index s sub.
Proof.
  induction s as [|c s IH]; cbn [strings_Index].
  - destruct (String.prefix sub ""); lia.
  - destruct (String.prefix sub (String c s)); [lia|].
    destruct (strings_Index s sub <? 0); lia.
Qed.

(** [strings.Index(s, sub) == 0] is the prefix test. *)
Lemma strings_Index_zero s sub : (strings_Index s sub =? 0) = String.prefix sub s.
Proof.
  destruct s as [|c s]; cbn [strings_Index].
  - destruct (String.prefix sub ""); reflexivity.
  - destruct (String.prefix sub (String c s)); [reflexivity|].
    pose proof (strings_Index_lower s sub).
    destruct (strings_Index s sub <? 0) eqn:E; [reflexivity|].
    apply Z.ltb_ge in E. apply Z.eqb_neq. lia.
Qed.

Lemma plain_not_x s : string_forall plain_byte s = true -> string_forall not_x s = true.
Proof.
  induction s as [|c s IH]; simpl; [reflexivity|].
  intros H. apply andb_prop in H as [Hc Hs]. rewrite IH by exact Hs.
  unfold plain_byte in Hc. apply andb_prop in Hc as [Hc _]. apply andb_prop in Hc as [Hc _].
  unfold not_x. rewrite Hc. reflexivity.
Qed.

Lemma prefix_0x_no_x s : string_forall not_x s = true -> String.prefix "0x" s = false.
Proof.
  intros H. destruct (String.prefix "0x" s) eqn:E; [|reflexivity].
  apply prefix_0x in E as [t ->]. simpl in H. discriminate H.
Qed.

(** Without an 'x' there is no "0x" to replace. *)
Lemma replace_0x_no_x s :
  string_forall not_x s = true -> replace_from "0x" "" s 0 = s.
Proof.
  induction s as [|c s IH]; [reflexivity|]. intros H.
  cbn [replace_from]. rewrite (prefix_0x_no_x _ H).
  simpl in H. apply andb_prop in H as [_ Hs]. rewrite IH by exact Hs. reflexivity.
Qed.

(** ** Rationals with denominator one *)

Lemma this_SetInt x : this (Rat_SetInt x) = inject_Z x.
Proof. unfold Rat_SetInt. simpl. apply inject_Z_Qred. Qed.

Lemma Rat_IsInt_SetInt x : Rat_IsInt (Rat_SetInt x) = true.
Proof. unfold Rat_IsInt. rewrite this_SetInt. reflexivity. Qed.

Lemma Rat_Num_SetInt x : Rat_Num (Rat_SetInt x) = x.
Proof. unfold Rat_Num. rewrite this_SetInt. reflexivity. Qed.

Lemma Rat_Cmp_rat0 q : (Rat_Cmp q rat0 <? 0) = (Rat_Num q <? 0).
Proof.
  unfold Rat_Cmp, Rat_Num, Qccompare, Qcompare. cbn [this rat0 Q2Qc Qnum Qden].
  change (Qnum (Qred (0 # 1))) with 0. change (Qden (Qred (0 # 1))) with 1%positive.
  rewrite Z.mul_1_r, Z.mul_0_l.
  destruct (Qnum (this q)) as [|p|p]; reflexivity.
Qed.

Lemma Rat_IsInt_spec q : Rat_IsInt q = true -> q = Rat_SetInt (Rat_Num q).
Proof.
  unfold Rat_IsInt, Rat_Num. intros H. apply Pos.eqb_eq in H.
  apply Qc_is_canon. rewrite this_SetInt.
  destruct q as [[n d] Hq]. simpl in *. subst d. reflexivity.
Qed.

Lemma Rat_SetInt_mul a b : (Rat_SetInt a * Rat_SetInt b)%Qc = Rat_SetInt (a * b).
Proof.
  apply Qc_is_canon. unfold Qcmult. cbn [this Q2Qc].
  rewrite Qred_correct, !this_SetInt. unfold Qeq, Qmult, inject_Z. simpl. lia.
Qed.

(** ** Trimming and case folding on ASCII strings *)

Lemma trim_left_trimmed s : trimmed_left (trim_left s).
Proof.
  induction s as [|c s IH]; simpl; [exact I|].
  destruct (asciiSpace c) eqn:E; [exact IH | exact E].
Qed.

Lemma trimmed_left_fix s : trimmed_left s -> trim_left s = s.
Proof. destruct s as [|c s]; simpl; [reflexivity|]. intros ->. reflexivity. Qed.

Lemma trim_right_trimmed s : trimmed_left s -> trimmed_left (trim_right s).
Proof.
  destruct s as [|c s]; simpl; [exact id|]. intros Hc.
  destruct (trim_right s); [rewrite Hc|]; exact Hc.
Qed.

Lemma trim_right_idem s : trim_right (trim_right s) = trim_right s.
Proof.
  induction s as [|c s IH]; simpl; [reflexivity|].
  destruct (trim_right s) as [|c' r] eqn:E.
  - destruct (asciiSpace c) eqn:Hc; simpl; [reflexivity|]. rewrite Hc. reflexivity.
  - cbn [trim_right]. cbn [trim_right] in IH. rewrite IH. reflexivity.
Qed.

Lemma trim_idem s :
  trim_right (trim_left (trim_right (trim_left s))) = trim_right (trim_left s).
Proof.
  rewrite (trimmed_left_fix (trim_right (trim_left s))).
  - apply trim_right_idem.
  - apply trim_right_trimmed, trim_left_trimmed.
Qed.

Lemma trim_left_lower s :
  trim_left (string_map ascii_lower s) = string_map ascii_lower (trim_left s).
Proof.
  induction s as [|c s IH]; simpl; [reflexivity|].
  rewrite ascii_lower_space. destruct (asciiSpace c); [exact IH | reflexivity].
Qed.

Lemma trim_right_lower s :
  trim_right (string_map ascii_lower s) = string_map ascii_lower (trim_right s).
Proof.
  induction s as [|c s IH]; simpl; [reflexivity|].
  rewrite IH, ascii_lower_space.
  destruct (trim_right s); simpl; [destruct (asciiSpace c)|]; reflexivity.
Qed.

Lemma isASCII_lower s : isASCII (string_map ascii_lower s) = isASCII s.
Proof.
  unfold isASCII. induction s as [|c s IH]; simpl; [reflexivity|].
  rewrite ascii_lower_7bit, IH. reflexivity.
Qed.

Lemma isASCII_trim_left s : isASCII s = true -> isASCII (trim_left s) = true.
Proof.
  unfold isASCII. induction s as [|c s IH]; simpl; [reflexivity|].
  intros H. destruct (asciiSpace c); [|exact H].
  apply andb_prop in H as [_ H]. apply IH, H.
Qed.

Lemma isASCII_trim_right s : isASCII s = true -> isASCII (trim_right s) = true.
Proof.
  unfold isASCII. induction s as [|c s IH]; simpl; [reflexivity|].
  intros H. apply andb_prop in H as [Hc Hs]. specialize (IH Hs).
  destruct (trim_right s) as [|c' r].
  - destruct (asciiSpace c); simpl; [reflexivity|]. rewrite Hc. reflexivity.
  - simpl in *. rewrite Hc. exact IH.
Qed.

Lemma string_map_lower_idem s :
  string_map ascii_lower (string_map ascii_lower s) = string_map ascii_lower s.
Proof.
  induction s as [|c s IH]; simpl; [reflexivity|].
  rewrite ascii_lower_idem, IH. reflexivity.
Qed.

Lemma string_map_empty f s : string_map f s = "" -> s = "".
Proof. destruct s; [reflexivity | discriminate]. Qed.

(** ** Unit lookup *)

Section UnitLookup.
Context {lib : GoLibrary}.

Lemma getValueOfUnit_key unit :
  getValueOfUnit unit =
  match unitMap !! unit_key unit with
  | Some unitValue => Ok (Rat_SetInt (Int_SetString_into unitValue 10))
  | None => Panic UnknownUnit
  end.
Proof.
  unfold getValueOfUnit, unit_key.
  destruct (String.eqb (strings_TrimSpace unit) ""); reflexivity.
Qed.

(** Every entry of the table is a decimal numeral of a natural number. *)
Lemma unitMap_decimal k v :
  unitMap !! k = Some v -> exists z, Int_SetString v 10 = Some z /\ 0 <= z.
Proof.
  intros H. apply elem_of_list_to_map_2 in H.
  repeat (apply elem_of_cons in H as [[= -> ->] | H];
          [eexists; split; [vm_compute; reflexivity | lia] |]).
  apply elem_of_nil in H. destruct H.
Qed.

Lemma getValueOfUnit_integral unit scale :
  getValueOfUnit unit = Ok scale -> exists z, scale = Rat_SetInt z /\ 0 <= z.
Proof.
  rewrite getValueOfUnit_key. destruct (unitMap !! unit_key unit) as [v|] eqn:E; [|discriminate].
  intros [= <-]. destruct (unitMap_decimal _ _ E) as (z & Hz & Hpos).
  exists z. unfold Int_SetString_into. rewrite Hz. split; [reflexivity | exact Hpos].
Qed.

(** A spelling that folds to an ASCII name without outer blanks is
    looked up under that name. *)
Lemma unit_key_fold unit k :
  string_map ascii_lower unit = k ->
  isASCII k = true -> trim_right (trim_left k) = k -> k <> "" ->
  unit_key unit = k.
Proof.
  intros Hfold Hascii Htrim Hne.
  assert (Hu : isASCII unit = true) by (rewrite <- isASCII_lower, Hfold; exact Hascii).
  assert (Ht : string_map ascii_lower (trim_right (trim_left unit)) = k).
  { rewrite <- trim_right_lower, <- trim_left_lower, Hfold. exact Htrim. }
  unfold unit_key, strings_TrimSpace. rewrite Hu.
  destruct (String.eqb_spec (trim_right (trim_left unit)) "") as [He|_].
  - rewrite He in Ht. simpl in Ht. congruence.
  - unfold strings_ToLower.
    rewrite isASCII_trim_right by (apply isASCII_trim_left, Hu). exact Ht.
Qed.

(** On ASCII names the lookup only depends on the trimmed, lowercased
    name. *)
Lemma unit_key_normal_form unit :
  isASCII unit = true ->
  unit_key (strings_ToLower (strings_TrimSpace unit)) = unit_key unit.
Proof.
  intros Hu. set (t := trim_right (trim_left unit)).
  assert (Ht : isASCII t = true)
    by (apply isASCII_trim_right, isASCII_trim_left, Hu).
  assert (HT : strings_TrimSpace unit = t)
    by (unfold strings_TrimSpace; rewrite Hu; reflexivity).
  assert (HL : strings_ToLower t = string_map ascii_lower t)
    by (unfold strings_ToLower; rewrite Ht; reflexivity).
  rewrite HT, HL.
  destruct (String.eqb_spec t "") as [He|Hne].
  - unfold unit_key at 2. rewrite HT, He. reflexivity.
  - transitivity (string_map ascii_lower t).
    + apply unit_key_fold.
      * apply string_map_lower_idem.
      * rewrite isASCII_lower. exact Ht.
      * subst t. rewrite trim_left_lower, trim_right_lower, trim_idem. reflexivity.
      * intros He. apply Hne. eapply string_map_empty, He.
    + unfold unit_key. rewrite HT.
      apply String.eqb_neq in Hne. rewrite Hne, HL. reflexivity.
Qed.

Lemma getValueOfUnit_normal_form unit :
  isASCII unit = true ->
  getValueOfUnit (strings_ToLower (strings_TrimSpace unit)) = getValueOfUnit unit.
Proof.
  intros Hu. rewrite !getValueOfUnit_key, unit_key_normal_form by exact Hu.
  reflexivity.
Qed.

End UnitLookup.

(** ** Claims about unit lookup *)

Section UnitClaims.
Context {lib : GoLibrary}.

(** Claim C2, as the code has it: a unit name whose trimmed and
    lowercased form ("ether" for a blank name) is not a key of the unit
    table makes [getValueOfUnit] panic.  No value, and so no error
    value, reaches the caller, and [ToSha] and [FromSha] panic with
    it. *)
Theorem getValueOfUnit_unknown_panics (unit : string) :
  unitMap !! unit_key unit = None ->
  getValueOfUnit unit = Panic UnknownUnit
  /\ ~ returns (getValueOfUnit unit)
  /\ (forall number, ToSha number unit = Panic UnknownUnit)
  /\ (forall number, FromSha number unit = Panic UnknownUnit).
Proof.
  intros Hkey.
  assert (Hp : getValueOfUnit unit = Panic UnknownUnit).
  { rewrite getValueOfUnit_key, Hkey. reflexivity. }
  split; [exact Hp|]. split.
  - intros [v Hv]. rewrite Hp in Hv. discriminate Hv.
  - split; intros number; [unfold ToSha | unfold FromSha]; rewrite Hp; reflexivity.
Qed.

(** Claim C5, at the blank unit name: the default of [getValueOfUnit]
    is the key "ether", which the unit table does not hold, so the
    lookup panics where the primary unit "mc" has scale 10^18. *)
Theorem getValueOfUnit_blank_name :
  unit_key "" = "ether"
  /\ unitMap !! "ether" = None
  /\ getValueOfUnit "" = Panic UnknownUnit
  /\ getValueOfUnit "  " = Panic UnknownUnit
  /\ getValueOfUnit "mc" = Ok (Rat_SetInt (10 ^ 18)).
Proof. repeat split; vm_compute; reflexivity. Qed.

(** Claim C9: every unit name listed in the external interface is a
    key of the unit table holding the decimal numeral of the listed
    scale factor, and [getValueOfUnit] returns that factor for the name
    in any letter case. *)
Theorem listed_units_lookup (name : string) (scale : Z) (unit : string) :
  (name, scale) ∈ listed_units ->
  string_map ascii_lower unit = string_map ascii_lower name ->
  unitMap !! name = Some (Int_String scale)
  /\ getValueOfUnit unit = Ok (Rat_SetInt scale).
Proof.
  intros Hin Hfold. unfold listed_units in Hin.
  repeat (apply elem_of_cons in Hin as [[= -> ->] | Hin];
          [split; [vm_compute; reflexivity|];
           rewrite getValueOfUnit_key;
           rewrite (unit_key_fold unit _ Hfold);
           [vm_compute; reflexivity | reflexivity | reflexivity | discriminate] |]).
  apply elem_of_nil in Hin. destruct Hin.
Qed.

(** Claim C10: for every input string, [FromSha] with the unit "nomc",
    whose scale factor is zero, ends in the division-by-zero panic of
    [Quo]; nothing guards the division and no value is returned. *)
Theorem FromSha_nomc_divides_by_zero (number : string) :
  getValueOfUnit "nomc" = Ok (Rat_SetInt 0)
  /\ FromSha number "nomc" = Panic DivisionByZero
  /\ ~ returns (FromSha number "nomc").
Proof.
  assert (Hu : getValueOfUnit "nomc" = Ok (Rat_SetInt 0)) by (vm_compute; reflexivity).
  assert (Hp : FromSha number "nomc" = Panic DivisionByZero).
  { unfold FromSha. rewrite Hu. reflexivity. }
  split; [exact Hu|]. split; [exact Hp|].
  intros [v Hv]. rewrite Hp in Hv. discriminate Hv.
Qed.

End UnitClaims.

(** Claim C2 as stated fails at the unit name "bogus": it is no key of
    the table and the lookup returns nothing, whatever the library
    does. *)
Lemma getValueOfUnit_bogus_aborts :
  unitMap !! "bogus" = None
  /\ forall lib : GoLibrary, ~ returns (@getValueOfUnit lib "bogus").
Proof.
  split; [reflexivity|]. intros lib [v Hv]. vm_compute in Hv. discriminate Hv.
Qed.

Lemma getValueOfUnit_unknown_panics_witness :
  @getValueOfUnit sample_lib "bogus" = Panic UnknownUnit
  /\ ~ returns (@getValueOfUnit sample_lib "bogus")
  /\ (forall number, @ToSha sample_lib number "bogus" = Panic UnknownUnit)
  /\ (forall number, @FromSha sample_lib number "bogus" = Panic UnknownUnit).
Proof. apply (@getValueOfUnit_unknown_panics sample_lib "bogus"). reflexivity. Defined.

Lemma listed_units_lookup_witness :
  unitMap !! "Ksha" = Some (Int_String (10 ^ 3))
  /\ @getValueOfUnit sample_lib "KSHA" = Ok (Rat_SetInt (10 ^ 3)).
Proof.
  apply (@listed_units_lookup sample_lib "Ksha" (10 ^ 3) "KSHA").
  - unfold listed_units. do 2 (apply elem_of_cons; right). apply elem_of_cons. left. reflexivity.
  - reflexivity.
Defined.

(** ** Hex quantity strings *)

Lemma strip_zeros_cons c c' r :
  strip_zeros (String c (String c' r)) =
  if Ascii.eqb c "0" then strip_zeros (String c' r) else String c (String c' r).
Proof. reflexivity. Qed.

Lemma strip_zeros_value base s :
  digits_value base 0 (digit_vals (strip_zeros s)) = digits_value base 0 (digit_vals s).
Proof.
  induction s as [|c s IH]; [reflexivity|].
  destruct s as [|c' r]; [reflexivity|].
  rewrite strip_zeros_cons. destruct (Ascii.eqb_spec c "0") as [->|_]; [|reflexivity].
  rewrite IH. reflexivity.
Qed.

Lemma strip_zeros_canonical s : s <> "" -> canonical (digit_vals (strip_zeros s)).
Proof.
  induction s as [|c s IH]; [congruence|]. intros _.
  destruct s as [|c' r]; [right; reflexivity|].
  rewrite strip_zeros_cons. destruct (Ascii.eqb_spec c "0") as [->|Hc].
  - apply IH. discriminate.
  - left. intros Hz. apply Hc, digit_val_zero, Hz.
Qed.

Lemma strip_zeros_Forall (P : N -> Prop) s :
  Forall P (digit_vals s) -> Forall P (digit_vals (strip_zeros s)).
Proof.
  induction s as [|c s IH]; [exact id|]. intros H.
  destruct s as [|c' r]; [exact H|].
  rewrite strip_zeros_cons. destruct (Ascii.eqb c "0"); [|exact H].
  apply IH. inversion H; assumption.
Qed.

Lemma string_of_digit_vals s :
  Forall (fun d => (d < 36)%N) (digit_vals s) ->
  string_of_digits (digit_vals s) = string_map ascii_lower s.
Proof.
  induction s as [|c s IH]; simpl; [reflexivity|]. intros H.
  inversion H as [|? ? Hc Hs]; subst.
  rewrite IH by exact Hs. rewrite digit_char_lower by (apply N.ltb_lt, Hc). reflexivity.
Qed.

(** Printing the value of a numeral gives its normal form. *)
Lemma nat_Text_of_scan base ds n :
  (2 <= base <= 36)%N -> scan_mantissa base ds = Some n ->
  nat_Text base n = string_map ascii_lower (strip_zeros ds).
Proof.
  intros [Hlo Hhi] Hscan.
  assert (Hne : ds <> "") by (intros ->; discriminate Hscan).
  assert (Hscan' : scan_digits base 0 ds = Some n) by (destruct ds; [congruence | exact Hscan]).
  apply scan_digits_value in Hscan' as [Hall ->].
  rewrite <- (strip_zeros_value base ds).
  unfold nat_Text.
  destruct (digits_fuel_enough (digits_value base 0 (digit_vals (strip_zeros ds)))) as [Hn Hf].
  rewrite (digits_lsd_unique base Hlo); try assumption.
  - rewrite rev_involutive. apply string_of_digit_vals, strip_zeros_Forall.
    apply (Forall_lt_le base); assumption.
  - apply strip_zeros_Forall, Hall.
  - apply strip_zeros_canonical, Hne.
Qed.


Lemma hex_digit_plain c : (digit_val c <? 16)%N = true -> plain_byte c = true.
Proof. each_byte c; intros H; try discriminate H; reflexivity. Qed.

Lemma hex_digits_no_x ds n :
  scan_digits 16 0 ds = Some n -> string_forall not_x ds = true.
Proof.
  generalize 0%N. induction ds as [|c ds IH]; intros acc; simpl; [reflexivity|].
  destruct (digit_val c <? 16)%N eqn:Hc; [|discriminate].
  intros H. rewrite (IH _ H). unfold not_x. rewrite (digit_val_not_x c Hc). reflexivity.
Qed.

Lemma Int_SetString_mantissa base ds n :
  (base <= 16)%N -> scan_mantissa base ds = Some n ->
  Int_SetString ds base = Some (Z.of_N n).
Proof.
  intros Hb H. destruct ds as [|c ds]; [discriminate H|].
  rewrite Int_SetString_plain, H; [reflexivity|].
  simpl in H. destruct (digit_val c <? base)%N eqn:Hc; [|discriminate H].
  apply hex_digit_plain. apply N.ltb_lt in Hc. apply N.ltb_lt. lia.
Qed.

Lemma prefix_0x_intro t : String.prefix "0x" (String "0" (String "x" t)) = true.
Proof. destruct t; reflexivity. Qed.

Lemma prefix_minus_0x_intro t :
  String.prefix "-0x" (String "-" (String "0" (String "x" t))) = true.
Proof. destruct t; reflexivity. Qed.

Lemma replace_0x_head t :
  replace_from "0x" "" (String "0" (String "x" t)) 0 = replace_from "0x" "" t 0.
Proof. cbn [replace_from]. rewrite prefix_0x_intro. reflexivity. Qed.

Lemma prefix_minus_0x s :
  String.prefix "-0x" s = true -> exists t, s = String "-" (String "0" (String "x" t)).
Proof.
  destruct s as [|a s]; cbn [String.prefix]; [discriminate|].
  destruct (ascii_dec "-" a) as [<-|]; [|discriminate].
  intros H. apply prefix_0x in H as [t ->]. eauto.
Qed.

(** ** Claims about quantities *)

Section QuantityClaims.
Context {lib : GoLibrary}.

Lemma ToBigNumber_decimal s z :
  Int_SetString s 10 = Some z -> ToBigNumber (VString s) = Some (Rat_SetInt z).
Proof.
  intros Hs. unfold ToBigNumber. rewrite !strings_Index_zero.
  destruct (String.prefix "0x" s) eqn:E1.
  { apply prefix_0x in E1 as [t ->]. vm_compute in Hs. discriminate Hs. }
  destruct (String.prefix "-0x" s) eqn:E2.
  { apply prefix_minus_0x in E2 as [t ->]. vm_compute in Hs. discriminate Hs. }
  simpl. unfold Int_SetString_into. rewrite Hs. reflexivity.
Qed.

Lemma ToBigNumber_hex neg ds n :
  scan_mantissa 16 ds = Some n ->
  ToBigNumber (VString (hex_quantity neg ds)) =
  Some (Rat_SetInt (if neg then - Z.of_N n else Z.of_N n)).
Proof.
  intros Hscan.
  assert (Hx : string_forall not_x ds = true).
  { destruct ds as [|c ds]; [discriminate Hscan|]. apply (hex_digits_no_x _ n), Hscan. }
  unfold ToBigNumber. rewrite !strings_Index_zero. unfold strings_Replace, Int_SetString_into.
  destruct neg.
  - change (hex_quantity true ds) with (String "-" (String "0" (String "x" ds))).
    change (String.prefix "0x" (String "-" (String "0" (String "x" ds)))) with false.
    rewrite prefix_minus_0x_intro. cbn [orb].
    change (replace_from "0x" "" (String "-" (String "0" (String "x" ds))) 0)
      with (String "-" (replace_from "0x" "" (String "0" (String "x" ds)) 0)).
    rewrite replace_0x_head, replace_0x_no_x by exact Hx.
    cbn [Int_SetString]. rewrite Hscan. reflexivity.
  - change (hex_quantity false ds) with (String "0" (String "x" ds)).
    rewrite prefix_0x_intro. cbn [orb].
    rewrite replace_0x_head, replace_0x_no_x by exact Hx.
    rewrite (Int_SetString_mantissa 16 ds n) by (assumption || lia). reflexivity.
Qed.

(** A dynamic type outside the switch of [ToBigNumber] (a machine
    [int], say) gives a nil rational, and the multiplication panics. *)
Lemma ToSha_unhandled_type unit scale :
  getValueOfUnit unit = Ok scale -> ToSha VOther unit = Panic NilDereference.
Proof. intros H. unfold ToSha. rewrite H. reflexivity. Qed.


(** Claim C4: for an input denoting the integer [q] and a unit whose
    scale factor is not zero, [ToSha] returns a decimal string that
    [FromSha] with the same unit turns back into the decimal string of
    [q]. *)
Theorem unit_round_trip (number : value) (q : Z) (unit : string) (scale : Qc) :
  ToBigNumber number = Some (Rat_SetInt q) ->
  getValueOfUnit unit = Ok scale ->
  scale <> rat0 ->
  exists s, ToSha number unit = Ok s
            /\ FromSha s unit = Ok (Int_String q)
            /\ ToBigNumber (VString (Int_String q)) = Some (Rat_SetInt q).
Proof.
  intros Hnum Hunit Hnz.
  destruct (getValueOfUnit_integral unit scale Hunit) as (k & -> & Hk).
  exists (Int_String (q * k)). split; [|split].
  - unfold ToSha. rewrite Hnum, Hunit. simpl.
    rewrite Rat_SetInt_mul, Rat_Num_SetInt. reflexivity.
  - unfold FromSha. rewrite Hunit.
    rewrite (ToBigNumber_decimal _ (q * k)) by (apply Int_SetString_Text; lia).
    simpl. unfold Rat_Quo. rewrite Rat_Num_SetInt.
    destruct (Z.eqb_spec k 0) as [->|Hk0]; [exfalso; apply Hnz; reflexivity|].
    simpl. rewrite <- Rat_SetInt_mul, Qcdiv_mult_l by exact Hnz.
    rewrite Rat_Num_SetInt. reflexivity.
  - apply ToBigNumber_decimal, Int_SetString_Text. lia.
Qed.

(** Claim C3, as the code has it: a valid hex quantity string comes
    back from [FromDecimal] in normal form (no leading zero, lower
    case), except that the minus sign of a zero is dropped. *)
Theorem hex_round_trip (neg : bool) (ds : string) (n : N) :
  scan_mantissa 16 ds = Some n ->
  FromDecimal (VString (hex_quantity neg ds)) =
  Ok (normalize_hex (neg && negb (n =? 0)%N) ds).
Proof.
  intros Hscan. unfold FromDecimal.
  rewrite (ToBigNumber_hex neg ds n Hscan).
  rewrite Rat_IsInt_SetInt, Rat_Cmp_rat0, Rat_Num_SetInt.
  pose proof (nat_Text_of_scan 16 ds n ltac:(lia) Hscan) as Htext.
  unfold normalize_hex. rewrite <- Htext. unfold Int_Text.
  destruct neg; simpl andb.
  - destruct (N.eqb_spec n 0) as [->|Hn]; [reflexivity|].
    assert (Hneg : (- Z.of_N n <? 0) = true) by (apply Z.ltb_lt; lia).
    rewrite Hneg. simpl. f_equal. f_equal. f_equal. f_equal. f_equal. lia.
  - assert (Hpos : (Z.of_N n <? 0) = false) by (apply Z.ltb_ge; lia).
    rewrite Hpos. simpl. f_equal. f_equal. f_equal. f_equal. lia.
Qed.


End QuantityClaims.

(** Claim C3 as stated fails at "-0x0": the result is "0x0", which is
    not the input with leading zeros and letter case normalized. *)
Lemma hex_round_trip_negative_zero :
  scan_mantissa 16 "0" = Some 0%N
  /\ normalize_hex true "0" = "-0x0"
  /\ forall lib : GoLibrary,
       @FromDecimal lib (VString (hex_quantity true "0")) = Ok "0x0"
       /\ @FromDecimal lib (VString (hex_quantity true "0")) <> Ok (normalize_hex true "0").
Proof.
  split; [reflexivity|]. split; [reflexivity|]. intros lib.
  assert (H : @FromDecimal lib (VString (hex_quantity true "0")) = Ok "0x0")
    by (vm_compute; reflexivity).
  split; [exact H|]. rewrite H. discriminate.
Qed.

Lemma hex_round_trip_witness :
  @FromDecimal sample_lib (VString "-0x00Ff") = Ok "-0xff".
Proof. apply (@hex_round_trip sample_lib true "00Ff" 255). reflexivity. Defined.

Lemma unit_round_trip_witness :
  exists s, @ToSha sample_lib (VInt 25) "kmc" = Ok s
            /\ @FromSha sample_lib s "kmc" = Ok (Int_String 25)
            /\ @ToBigNumber sample_lib (VString (Int_String 25)) = Some (Rat_SetInt 25).
Proof.
  apply (@unit_round_trip sample_lib (VInt 25) 25 "kmc" (Rat_SetInt (10 ^ 21))).
  - reflexivity.
  - vm_compute. reflexivity.
  - intros H. apply (f_equal Rat_Num) in H. vm_compute in H. discriminate H.
Defined.



(** ** Regular expressions: the matcher decides the language *)

Lemma append_empty (s1 s2 : string) : s1 ++ s2 = "" -> s1 = "" /\ s2 = "".
Proof. destruct s1; simpl; [auto | discriminate]. Qed.

Lemma append_nil_l (s : string) : "" ++ s = s.
Proof. reflexivity. Qed.

Lemma append_cons c (s t : string) : String c s ++ t = String c (s ++ t).
Proof. reflexivity. Qed.

Lemma lang_void_inv s : ~ lang Void s.
Proof. intros H. inversion H. Qed.

Lemma lang_eps_inv s : lang Eps s -> s = "".
Proof. intros H. inversion H. reflexivity. Qed.

Lemma lang_range_inv lo hi s :
  lang (Range lo hi) s -> exists c, s = String c "" /\ byte_in lo hi c = true.
Proof. intros H. inversion H; subst. eauto. Qed.

Lemma lang_alt_inv r1 r2 s : lang (Alt r1 r2) s -> lang r1 s \/ lang r2 s.
Proof. intros H. inversion H; subst; auto. Qed.

Lemma lang_cat_inv r1 r2 s :
  lang (Cat r1 r2) s -> exists s1 s2, s = s1 ++ s2 /\ lang r1 s1 /\ lang r2 s2.
Proof. intros H. inversion H; subst. eauto. Qed.

Lemma nullable_lang r : nullable r = true <-> lang r "".
Proof.
  induction r as [| |lo hi|r1 IH1 r2 IH2|r1 IH1 r2 IH2]; simpl.
  - split; [discriminate | intros H; destruct (lang_void_inv _ H)].
  - split; [constructor | reflexivity].
  - split; [discriminate|]. intros H. apply lang_range_inv in H as (c & Hc & _). discriminate Hc.
  - rewrite orb_true_iff, IH1, IH2. split.
    + intros [H|H]; [apply lang_alt_l | apply lang_alt_r]; exact H.
    + apply lang_alt_inv.
  - rewrite andb_true_iff, IH1, IH2. split.
    + intros [H1 H2]. apply (lang_cat r1 r2 "" "" H1 H2).
    + intros H. apply lang_cat_inv in H as (s1 & s2 & Heq & H1 & H2).
      symmetry in Heq. apply append_empty in Heq as [-> ->]. auto.
Qed.

Lemma deriv_lang c r : forall s, lang (deriv c r) s <-> lang r (String c s).
Proof.
  induction r as [| |lo hi|r1 IH1 r2 IH2|r1 IH1 r2 IH2]; intros s; simpl.
  - split; intros H; destruct (lang_void_inv _ H).
  - split; intros H; [destruct (lang_void_inv _ H) | apply lang_eps_inv in H; discriminate H].
  - destruct (byte_in lo hi c) eqn:Hc; split; intros H.
    + apply lang_eps_inv in H as ->. constructor. exact Hc.
    + apply lang_range_inv in H as (c' & [= <- ->] & _). constructor.
    + destruct (lang_void_inv _ H).
    + apply lang_range_inv in H as (c' & [= <- ->] & Hc'). congruence.
  - split; intros H.
    + apply lang_alt_inv in H as [H|H]; [apply lang_alt_l, IH1 | apply lang_alt_r, IH2]; exact H.
    + apply lang_alt_inv in H as [H|H]; [apply lang_alt_l, IH1 | apply lang_alt_r, IH2]; exact H.
  - assert (Hhead : forall t, lang (Cat (deriv c r1) r2) t -> lang (Cat r1 r2) (String c t)).
    { intros t H. apply lang_cat_inv in H as (s1 & s2 & -> & H1 & H2).
      apply IH1 in H1. apply (lang_cat r1 r2 (String c s1) s2 H1 H2). }
    assert (Hsplit : lang (Cat r1 r2) (String c s) ->
                     lang (Cat (deriv c r1) r2) s \/ (lang r1 "" /\ lang (deriv c r2) s)).
    { intros H. apply lang_cat_inv in H as (s1 & s2 & Heq & H1 & H2).
      destruct s1 as [|c1 s1]; [rewrite append_nil_l in Heq | rewrite append_cons in Heq].
      - right. subst s2. split; [exact H1 | apply IH2, H2].
      - left. injection Heq as <- ->. apply lang_cat; [apply IH1, H1 | exact H2]. }
    destruct (nullable r1) eqn:Hn; split; intros H.
    + apply lang_alt_inv in H as [H|H]; [apply Hhead, H|].
      apply nullable_lang in Hn. apply IH2 in H.
      apply (lang_cat r1 r2 "" (String c s) Hn H).
    + apply Hsplit in H as [H|[_ H]]; [apply lang_alt_l | apply lang_alt_r]; exact H.
    + apply Hhead, H.
    + apply Hsplit in H as [H|[H1 _]]; [exact H|].
      apply nullable_lang in H1. congruence.
Qed.

Lemma MatchString_lang s : forall r, regexp_MatchString r s = true <-> lang r s.
Proof.
  induction s as [|c s IH]; intros r; simpl.
  - apply nullable_lang.
  - rewrite IH. apply deriv_lang.
Qed.

(** *** The address patterns *)

Lemma hexLower_class : class_regex lower_hex hexLower.
Proof.
  intros s. unfold hexLower, lower_hex. split.
  - intros H. apply lang_alt_inv in H as [H|H];
      apply lang_range_inv in H as (c & -> & Hc); exists c; rewrite Hc;
      split; try reflexivity. apply orb_true_r.
  - intros (c & -> & Hc). apply orb_true_iff in Hc as [Hc|Hc];
      [apply lang_alt_l | apply lang_alt_r]; constructor; exact Hc.
Qed.

Lemma hexUpper_class : class_regex upper_hex hexUpper.
Proof.
  intros s. unfold hexUpper, upper_hex. split.
  - intros H. apply lang_alt_inv in H as [H|H];
      apply lang_range_inv in H as (c & -> & Hc); exists c; rewrite Hc;
      split; try reflexivity. apply orb_true_r.
  - intros (c & -> & Hc). apply orb_true_iff in Hc as [Hc|Hc];
      [apply lang_alt_l | apply lang_alt_r]; constructor; exact Hc.
Qed.

Lemma lang_Repeat p r n :
  class_regex p r ->
  forall s, lang (Repeat n r) s <-> String.length s = n /\ string_forall p s = true.
Proof.
  intros Hr. induction n as [|n IH]; intros s; simpl.
  - split.
    + intros H. apply lang_eps_inv in H as ->. split; reflexivity.
    + intros [Hlen _]. destruct s; [constructor | discriminate Hlen].
  - split.
    + intros H. apply lang_cat_inv in H as (s1 & s2 & -> & H1 & H2).
      apply Hr in H1 as (c & -> & Hc). apply IH in H2 as [Hlen Hall].
      rewrite append_cons, append_nil_l. simpl. rewrite Hlen, Hc, Hall. split; reflexivity.
    + intros [Hlen Hall]. destruct s as [|c s]; [discriminate Hlen|].
      simpl in Hlen, Hall. apply andb_prop in Hall as [Hc Hall].
      apply (lang_cat r (Repeat n r) (String c "") s).
      * apply Hr. eauto.
      * apply IH. split; [congruence | exact Hall].
Qed.

Lemma lang_Word w s : lang (Word w) s <-> s = w.
Proof.
  revert s. induction w as [|c w IH]; intros s; simpl.
  - split; [apply lang_eps_inv | intros ->; constructor].
  - split.
    + intros H. apply lang_cat_inv in H as (s1 & s2 & -> & H1 & H2).
      apply lang_range_inv in H1 as (c' & -> & Hc). apply IH in H2 as ->.
      rewrite append_cons, append_nil_l.
      assert (c' = c) as ->; [|reflexivity].
      unfold byte_in in Hc. apply andb_prop in Hc as [H1 H2].
      apply N.leb_le in H1, H2.
      rewrite <- (ascii_N_embedding c), <- (ascii_N_embedding c'). f_equal. lia.
    + intros ->. apply (lang_cat (Lit c) (Word w) (String c "") w).
      * constructor. unfold byte_in. rewrite N.leb_refl. reflexivity.
      * apply IH. reflexivity.
Qed.

Lemma address_regex_lang p r s :
  class_regex p r ->
  regexp_MatchString (Cat (Opt (Word "0x")) (Repeat 40 r)) s = true <-> hex40 p s.
Proof.
  intros Hr. rewrite MatchString_lang. unfold hex40. split.
  - intros H. apply lang_cat_inv in H as (s1 & s2 & -> & H1 & H2).
    apply (lang_Repeat p r 40 Hr) in H2. exists s2. split; [|exact H2].
    apply lang_alt_inv in H1 as [H1|H1].
    + apply lang_Word in H1 as ->. right. reflexivity.
    + apply lang_eps_inv in H1 as ->. left. reflexivity.
  - intros (body & Hs & Hbody). apply (lang_Repeat p r 40 Hr) in Hbody.
    destruct Hs as [-> | ->].
    + apply (lang_cat _ _ "" body); [apply lang_alt_r; constructor | exact Hbody].
    + apply (lang_cat _ _ "0x" body); [apply lang_alt_l, lang_Word; reflexivity | exact Hbody].
Qed.

(** ** Claims about addresses *)

Section AddressClaims.
Context {lib : GoLibrary}.

(** Claim C8: a string of forty lowercase, or forty uppercase, hex
    digits after an optional "0x" is an address without any checksum
    test; for every other string [IsAddress] is [isChecksumAddress]. *)
Theorem IsAddress_patterns (address : string) :
  (hex40 lower_hex address \/ hex40 upper_hex address -> IsAddress address = Ok true)
  /\ (~ hex40 lower_hex address -> ~ hex40 upper_hex address ->
      IsAddress address = isChecksumAddress address).
Proof.
  pose proof (address_regex_lang lower_hex hexLower address hexLower_class) as Hl.
  pose proof (address_regex_lang upper_hex hexUpper address hexUpper_class) as Hu.
  fold smallCapsMatcher in Hl. fold allCapsMatcher in Hu.
  unfold IsAddress. split.
  - intros [H|H]; [apply Hl in H | apply Hu in H]; rewrite H;
      [reflexivity | rewrite orb_true_r; reflexivity].
  - intros Hnl Hnu.
    destruct (regexp_MatchString smallCapsMatcher address); [destruct Hnl; apply Hl; reflexivity|].
    destruct (regexp_MatchString allCapsMatcher address); [destruct Hnu; apply Hu; reflexivity|].
    reflexivity.
Qed.

(** An iteration at a byte that both case mappings leave alone (a
    digit, say) never lets the loop go on. *)
Lemma loop_rejects_caseless address addressHash i todo c :
  String.get i address = Some c -> upper_fixed c = true -> lower_fixed c = true ->
  isChecksumAddress_loop address addressHash i (S todo) = Ok false
  \/ isChecksumAddress_loop address addressHash i (S todo) = Panic IndexOutOfRange.
Proof.
  intros Hc Hup Hlow. cbn [isChecksumAddress_loop].
  unfold string_index. rewrite Hc.
  destruct (String.get i addressHash) as [h|]; simpl; [|right; reflexivity].
  destruct (strconv_ParseInt (string_of_byte h) 16 32) as [d|]; [|left; reflexivity].
  fold (upper_fixed c). fold (lower_fixed c). rewrite Hup, Hlow.
  destruct (7 <? d) eqn:Hd; simpl; [left; reflexivity|].
  assert (Hle : (d <=? 7) = true) by (apply Z.leb_le; apply Z.ltb_ge in Hd; lia).
  rewrite Hle. left. reflexivity.
Qed.

(** Where the loop accepts, every position holds a character whose
    case is the opposite of what its nibble asks for. *)
Lemma loop_accepts_inverted todo : forall address addressHash i,
  isChecksumAddress_loop address addressHash i todo = Ok true ->
  forall j, (i <= j < i + todo)%nat ->
  exists h d c,
    String.get j addressHash = Some h
    /\ strconv_ParseInt (string_of_byte h) 16 32 = Some d
    /\ String.get j address = Some c
    /\ (if 7 <? d then upper_fixed c else lower_fixed c) = false.
Proof.
  induction todo as [|todo IH]; intros address addressHash i Hacc j Hj; [lia|].
  cbn [isChecksumAddress_loop] in Hacc. unfold string_index in Hacc.
  destruct (String.get i addressHash) as [h|] eqn:Hh; simpl in Hacc; [|discriminate].
  destruct (strconv_ParseInt (string_of_byte h) 16 32) as [d|] eqn:Hd; [|discriminate].
  fold (upper_fixed) in Hacc.
  assert (Hstep : exists c, String.get i address = Some c
                  /\ (if 7 <? d then upper_fixed c else lower_fixed c) = false
                  /\ isChecksumAddress_loop address addressHash (S i) todo = Ok true).
  { destruct (7 <? d) eqn:H7.
    - destruct (String.get i address) as [c|]; simpl in Hacc; [|discriminate].
      exists c. fold (upper_fixed c) in Hacc.
      destruct (upper_fixed c); simpl in Hacc; [discriminate|].
      assert (Hle : (d <=? 7) = false) by (apply Z.leb_gt; apply Z.ltb_lt in H7; lia).
      rewrite Hle in Hacc. simpl in Hacc. auto.
    - simpl in Hacc.
      assert (Hle : (d <=? 7) = true) by (apply Z.leb_le; apply Z.ltb_ge in H7; lia).
      rewrite Hle in Hacc.
      destruct (String.get i address) as [c|]; simpl in Hacc; [|discriminate].
      exists c. fold (lower_fixed c) in Hacc.
      destruct (lower_fixed c); simpl in Hacc; [discriminate|]. auto. }
  destruct Hstep as (c & Hc & Hcase & Hrest).
  destruct (Nat.eq_dec j i) as [->|Hne].
  - exists h, d, c. auto.
  - apply (IH address addressHash (S i) Hrest j). lia.
Qed.

Lemma isChecksumAddress_zero_head rest :
  isChecksumAddress (String "0" rest) = Ok false
  \/ isChecksumAddress (String "0" rest) = Panic IndexOutOfRange.
Proof.
  unfold isChecksumAddress.
  apply (loop_rejects_caseless _ _ 0 39 "0"); reflexivity.
Qed.

(** Claim C1, on addresses that start with the digit of the "0x"
    prefix: [isChecksumAddress] indexes the address with its prefix and
    turns away a character that is already in the wanted case, so it
    answers false (or runs off an empty digest) whatever the digest is;
    a checksummed mixed-case address reaches it through [IsAddress] and
    is turned down. *)
Theorem isChecksumAddress_rejects_prefixed :
  (forall rest,
     isChecksumAddress (String "0" rest) = Ok false
     \/ isChecksumAddress (String "0" rest) = Panic IndexOutOfRange)
  /\ IsAddress "0x5aAeb6053F3E94C9b9A09f33669435E7Ef1BeAed"
     = isChecksumAddress "0x5aAeb6053F3E94C9b9A09f33669435E7Ef1BeAed"
  /\ (IsAddress "0x5aAeb6053F3E94C9b9A09f33669435E7Ef1BeAed" = Ok false
      \/ IsAddress "0x5aAeb6053F3E94C9b9A09f33669435E7Ef1BeAed" = Panic IndexOutOfRange).
Proof.
  pose proof isChecksumAddress_zero_head as H0.
  assert (HI : IsAddress "0x5aAeb6053F3E94C9b9A09f33669435E7Ef1BeAed"
               = isChecksumAddress "0x5aAeb6053F3E94C9b9A09f33669435E7Ef1BeAed").
  { unfold IsAddress.
    replace (regexp_MatchString smallCapsMatcher "0x5aAeb6053F3E94C9b9A09f33669435E7Ef1BeAed")
      with false by (vm_compute; reflexivity).
    replace (regexp_MatchString allCapsMatcher "0x5aAeb6053F3E94C9b9A09f33669435E7Ef1BeAed")
      with false by (vm_compute; reflexivity).
    reflexivity. }
  split; [exact H0|]. split; [exact HI|]. rewrite HI. apply H0.
Qed.

Lemma spec_positions_caseless digest addr n :
  (n <= String.length digest)%nat -> (n <= String.length addr)%nat ->
  string_forall (fun c => upper_fixed c && lower_fixed c) addr = true ->
  spec_positions digest addr n = true.
Proof.
  revert digest addr. induction n as [|n IH]; intros digest addr Hd Ha Hall; [reflexivity|].
  destruct digest as [|h digest]; [simpl in Hd; lia|].
  destruct addr as [|c addr]; [simpl in Ha; lia|].
  simpl in *. apply andb_prop in Hall as [Hc Hall]. apply andb_prop in Hc as [Hu Hl].
  rewrite Hu, Hl, IH by (assumption || lia). destruct (7 <? digit_val h)%N; reflexivity.
Qed.

Lemma hex_of_bytes_length s : String.length (hex_of_bytes s) = (2 * String.length s)%nat.
Proof.
  induction s as [|b s IH]; [reflexivity|].
  cbn [hex_of_bytes]. unfold hex_of_byte. rewrite !append_cons, append_nil_l.
  cbn [String.length]. rewrite IH. lia.
Qed.

(** The two tests disagree on an address of digits only: the rule of
    the specification holds at every position, the code turns the
    address down. *)
Lemma digits_address_disagreement :
  (forall data, String.length (sha3_Keccak256 data) = 32%nat) ->
  let address := "0x0000000000000000000000000000000000000000" in
  spec_isChecksumAddress address = true
  /\ (isChecksumAddress address = Ok false
      \/ isChecksumAddress address = Panic IndexOutOfRange).
Proof.
  intros Hlen address. split.
  - unfold spec_isChecksumAddress. apply spec_positions_caseless.
    + rewrite hex_of_bytes_length, Hlen. lia.
    + vm_compute. lia.
    + reflexivity.
  - exact (isChecksumAddress_zero_head "x0000000000000000000000000000000000000000").
Qed.

End AddressClaims.

Lemma digits_address_disagreement_sample :
  @spec_isChecksumAddress sample_lib "0x0000000000000000000000000000000000000000" = true
  /\ @isChecksumAddress sample_lib "0x0000000000000000000000000000000000000000" = Ok false.
Proof.
  destruct (@digits_address_disagreement sample_lib) as [Hs [Hc|Hc]];
    try (intros data; reflexivity).
  - split; assumption.
  - vm_compute in Hc. discriminate Hc.
Qed.

Lemma IsAddress_patterns_witness :
  @IsAddress sample_lib "0x407d73d8a49eeb85d32cf465507dd71d507100c1" = Ok true
  /\ @IsAddress sample_lib "0x407D73D8A49EEB85D32CF465507DD71D507100c1"
     = @isChecksumAddress sample_lib "0x407D73D8A49EEB85D32CF465507DD71D507100c1".
Proof.
  split.
  - apply (@IsAddress_patterns sample_lib "0x407d73d8a49eeb85d32cf465507dd71d507100c1").
    left. exists "407d73d8a49eeb85d32cf465507dd71d507100c1".
    split; [right; reflexivity | split; reflexivity].
  - apply (@IsAddress_patterns sample_lib "0x407D73D8A49EEB85D32CF465507DD71D507100c1").
    + intros H. apply (address_regex_lang lower_hex hexLower _ hexLower_class) in H.
      vm_compute in H. discriminate H.
    + intros H. apply (address_regex_lang upper_hex hexUpper _ hexUpper_class) in H.
      vm_compute in H. discriminate H.
Defined.

(** * Further properties of the conversion functions *)

(** ** Numerators of quotients *)

Lemma Qred_num (a : Z) (p : positive) :
  Qnum (Qred (a # p)) = a / Z.gcd a (Zpos p).
Proof.
  unfold Qred.
  pose proof (Z.ggcd_gcd a (Zpos p)) as Hg.
  pose proof (Z.ggcd_correct_divisors a (Zpos p)) as Hd.
  destruct (Z.ggcd a (Zpos p)) as [g [aa bb]]. simpl in *. subst g.
  destruct Hd as [Ha Hb].
  assert (Hpos : 0 < Z.gcd a (Zpos p)).
  { pose proof (Z.gcd_nonneg a (Zpos p)).
    destruct (Z.eq_dec (Z.gcd a (Zpos p)) 0) as [E|E]; [|lia].
    apply Z.gcd_eq_0_r in E. discriminate E. }
  apply Z.div_unique_exact; [lia | exact Ha].
Qed.

Lemma Rat_Num_quotient (q k : Z) :
  0 < k -> Rat_Num (Rat_SetInt q / Rat_SetInt k)%Qc = q / Z.gcd q k.
Proof.
  intros Hk. destruct k as [|p|p]; try lia.
  unfold Rat_Num, Qcdiv, Qcmult, Qcinv. cbn [this Q2Qc].
  rewrite !this_SetInt.
  change (/ inject_Z (Z.pos p))%Q with (1 # p).
  assert (H1 : Qred (1 # p) = 1 # p).
  { apply Qred_identity. simpl. apply Z.gcd_1_l. }
  rewrite H1. unfold inject_Z, Qmult. cbn [Qnum Qden].
  rewrite Qred_num, Z.mul_1_r, Pos.mul_1_l. reflexivity.
Qed.

Lemma Int_String_inj x y : Int_String x = Int_String y -> x = y.
Proof.
  intros H. pose proof (Int_SetString_Text x 10 ltac:(lia)) as Hx.
  pose proof (Int_SetString_Text y 10 ltac:(lia)) as Hy.
  unfold Int_String in H. rewrite H in Hx. congruence.
Qed.

Lemma scan_digits_stop base c s2 : forall s1 acc,
  (digit_val c <? base)%N = false ->
  scan_digits base acc (s1 ++ String c s2) = None.
Proof.
  induction s1 as [|c1 s1 IH]; intros acc Hc.
  - rewrite append_nil_l. simpl. rewrite Hc. reflexivity.
  - rewrite append_cons. simpl. destruct (digit_val c1 <? base)%N; [|reflexivity].
    apply IH, Hc.
Qed.

Lemma Int_SetString_slash base z rest :
  (2 <= base <= 16)%N -> Int_SetString (Int_String z ++ String "/" rest) base = None.
Proof.
  intros Hb.
  assert (Hslash : (digit_val "/" <? base)%N = false) by (apply N.ltb_ge; change (digit_val "/") with 63%N; lia).
  destruct (nat_Text_nonempty 10 (Z.abs_N z)) as (c & s & Heq).
  pose proof (nat_Text_plain 10 (Z.abs_N z) ltac:(lia)) as Hplain.
  unfold Int_String, Int_Text. rewrite Heq in *. destruct (z <? 0).
  - rewrite !append_cons. cbn [Int_SetString]. unfold scan_mantissa.
    rewrite <- append_cons, scan_digits_stop by exact Hslash. reflexivity.
  - rewrite append_cons. simpl in Hplain. apply andb_prop in Hplain as [Hc _].
    rewrite Int_SetString_plain by exact Hc. unfold scan_mantissa.
    rewrite <- append_cons, scan_digits_stop by exact Hslash. reflexivity.
Qed.

Lemma no_x_app a b :
  string_forall not_x (a ++ b) = true ->
  string_forall not_x a = true /\ string_forall not_x b = true.
Proof.
  induction a as [|c a IH]; [rewrite append_nil_l; auto|].
  rewrite append_cons. simpl. intros H. apply andb_prop in H as [Hc H].
  destruct (IH H) as [Ha Hb]. rewrite Hc, Ha. auto.
Qed.

(** An "0x" between two runs without the letter x is cut out. *)
Lemma replace_inner_0x b : string_forall not_x b = true -> forall a,
  string_forall not_x a = true ->
  replace_from "0x" "" (a ++ String "0" (String "x" b)) 0 = a ++ b.
Proof.
  intros Hb. induction a as [|c a IH]; intros Ha.
  - rewrite !append_nil_l, replace_0x_head. apply replace_0x_no_x, Hb.
  - simpl in Ha. apply andb_prop in Ha as [Hc Ha].
    rewrite !append_cons. cbn [replace_from].
    destruct (String.prefix "0x" (String c (a ++ String "0" (String "x" b)))) eqn:E.
    + exfalso. apply prefix_0x in E as [t Ht]. injection Ht as -> Ht.
      destruct a as [|c' a'].
      * rewrite append_nil_l in Ht. discriminate Ht.
      * rewrite append_cons in Ht. injection Ht as -> _. simpl in Ha. discriminate Ha.
    + rewrite IH by exact Ha. reflexivity.
Qed.

(** ** Quantities: encoding, decoding, unit arithmetic *)

Section QuantityExtras.
Context {lib : GoLibrary} {rt : GoRuntime}.

Lemma FromDecimal_integral value q :
  ToBigNumber value = Some q -> Rat_IsInt q = true ->
  FromDecimal value =
  Ok (hex_quantity (Rat_Num q <? 0) (nat_Text 16 (Z.abs_N (Rat_Num q)))).
Proof.
  intros Hq Hint. unfold FromDecimal. rewrite Hq, Hint, Rat_Cmp_rat0. unfold Int_Text.
  destruct (Rat_Num q <? 0); reflexivity.
Qed.

Lemma ToBigNumber_hex_text q :
  Rat_IsInt q = true ->
  ToBigNumber (VString (hex_quantity (Rat_Num q <? 0) (nat_Text 16 (Z.abs_N (Rat_Num q)))))
  = Some q.
Proof.
  intros Hint.
  rewrite (ToBigNumber_hex _ _ (Z.abs_N (Rat_Num q))) by (apply nat_Text_scan; lia).
  rewrite (Rat_IsInt_spec q Hint) at 4. f_equal. f_equal.
  destruct (Rat_Num q <? 0) eqn:E; [apply Z.ltb_lt in E | apply Z.ltb_ge in E]; lia.
Qed.


(** X1: the hex text [FromDecimal] prints for an integral quantity,
    negative ones included, is read back by [ToBigNumber] as the same
    quantity. *)
Theorem hex_encode_decode (value : value) (q : Qc) :
  ToBigNumber value = Some q -> Rat_IsInt q = true ->
  exists h, FromDecimal value = Ok h /\ ToBigNumber (VString h) = Some q.
Proof.
  intros Hq Hint. eexists. split.
  - apply FromDecimal_integral; eassumption.
  - apply ToBigNumber_hex_text, Hint.
Qed.


(** X3: for a quantity that is not integral, [ToDecimal] prints
    "numerator/denominator", a text that [SetString] accepts neither
    in base 10 nor in base 16, so it cannot be fed back. *)
Theorem ToDecimal_fraction (value : value) (q : Qc) :
  ToBigNumber value = Some q -> Rat_IsInt q = false ->
  ToDecimal value = Ok (Rat_String q)
  /\ Rat_String q = Int_String (Qnum (this q)) ++ "/" ++ Int_String (Zpos (Qden (this q)))
  /\ Int_SetString (Rat_String q) 10 = None
  /\ Int_SetString (Rat_String q) 16 = None.
Proof.
  intros Hq Hint. split; [unfold ToDecimal; rewrite Hq, Hint; reflexivity|].
  split; [reflexivity|].
  unfold Rat_String. rewrite append_cons, append_nil_l.
  split; apply Int_SetString_slash; lia.
Qed.

(** X4: [ToSha] of an input denoting the integer [q] is the decimal
    numeral of [q] times the scale factor of the unit, which is a
    natural number. *)
Theorem ToSha_product (number : value) (q : Z) (unit : string) (scale : Qc) :
  ToBigNumber number = Some (Rat_SetInt q) -> getValueOfUnit unit = Ok scale ->
  exists k, 0 <= k /\ scale = Rat_SetInt k /\ ToSha number unit = Ok (Int_String (q * k)).
Proof.
  intros Hq Hu. destruct (getValueOfUnit_integral unit scale Hu) as (k & -> & Hk).
  exists k. split; [exact Hk|]. split; [reflexivity|].
  unfold ToSha. rewrite Hq, Hu. simpl. rewrite Rat_SetInt_mul, Rat_Num_SetInt. reflexivity.
Qed.

Lemma scale_positive unit scale :
  getValueOfUnit unit = Ok scale -> scale <> rat0 ->
  exists k, 0 < k /\ scale = Rat_SetInt k.
Proof.
  intros Hu Hnz. destruct (getValueOfUnit_integral unit scale Hu) as (k & -> & Hk).
  exists k. split; [|reflexivity].
  destruct (Z.eq_dec k 0) as [->|]; [exfalso; apply Hnz; reflexivity | lia].
Qed.

Lemma FromSha_value number q unit k :
  ToBigNumber (VString number) = Some (Rat_SetInt q) ->
  getValueOfUnit unit = Ok (Rat_SetInt k) -> 0 < k ->
  FromSha number unit = Ok (Int_String (q / Z.gcd q k)).
Proof.
  intros Hq Hu Hk. unfold FromSha. rewrite Hq, Hu. simpl. unfold Rat_Quo.
  rewrite Rat_Num_SetInt.
  destruct (Z.eqb_spec k 0) as [E|_]; [lia|]. simpl.
  rewrite Rat_Num_quotient by exact Hk. reflexivity.
Qed.

(** X5: [FromSha] returns the numerator of the reduced quotient and
    drops its denominator: for the integer [q] and a scale [k > 0] the
    result is the numeral of [q / gcd(q,k)], which is the quotient
    [q / k] when [k] divides [q]. *)
Theorem FromSha_drops_denominator (number : string) (q : Z) (unit : string) (scale : Qc) :
  ToBigNumber (VString number) = Some (Rat_SetInt q) ->
  getValueOfUnit unit = Ok scale -> scale <> rat0 ->
  exists k, 0 < k /\ scale = Rat_SetInt k
            /\ FromSha number unit = Ok (Int_String (q / Z.gcd q k))
            /\ ((k | q) -> FromSha number unit = Ok (Int_String (q / k))).
Proof.
  intros Hq Hu Hnz. destruct (scale_positive unit scale Hu Hnz) as (k & Hk & ->).
  exists k. split; [exact Hk|]. split; [reflexivity|].
  pose proof (FromSha_value number q unit k Hq Hu Hk) as HF.
  split; [exact HF|]. intros Hdiv. rewrite HF. do 2 f_equal. f_equal.
  rewrite Z.gcd_comm. apply Z.divide_gcd_iff; [lia | exact Hdiv].
Qed.

(** X6: converting a decimal numeral from the smallest unit and back
    gives the numeral again exactly when the scale factor divides the
    number. *)
Theorem FromSha_ToSha_exact (q : Z) (unit : string) (scale : Qc) :
  getValueOfUnit unit = Ok scale -> scale <> rat0 ->
  exists k s, scale = Rat_SetInt k
              /\ FromSha (Int_String q) unit = Ok s
              /\ (ToSha (VString s) unit = Ok (Int_String q) <-> (k | q)).
Proof.
  intros Hu Hnz. destruct (scale_positive unit scale Hu Hnz) as (k & Hk & ->).
  assert (Hq : ToBigNumber (VString (Int_String q)) = Some (Rat_SetInt q))
    by (apply ToBigNumber_decimal, Int_SetString_Text; lia).
  exists k, (Int_String (q / Z.gcd q k)). split; [reflexivity|].
  split; [apply FromSha_value; assumption|].
  assert (HT : ToSha (VString (Int_String (q / Z.gcd q k))) unit
               = Ok (Int_String (q / Z.gcd q k * k))).
  { unfold ToSha. rewrite Hu.
    rewrite (ToBigNumber_decimal _ (q / Z.gcd q k)) by (apply Int_SetString_Text; lia).
    simpl. rewrite Rat_SetInt_mul, Rat_Num_SetInt. reflexivity. }
  rewrite HT. split.
  - intros [= H]. apply Int_String_inj in H. exists (q / Z.gcd q k). lia.
  - intros Hdiv. do 2 f_equal.
    assert (Hg : Z.gcd q k = k) by (rewrite Z.gcd_comm; apply Z.divide_gcd_iff; [lia | exact Hdiv]).
    rewrite Hg. destruct Hdiv as [m ->]. rewrite Z.div_mul by lia. reflexivity.
Qed.

(** X7: with a unit of scale zero, [ToSha] answers "0" for every
    input [ToBigNumber] accepts, fractions included, and [FromSha]
    panics for every input. *)
Theorem zero_scale_unit (unit : string) (scale : Qc) :
  getValueOfUnit unit = Ok scale -> Rat_Num scale = 0 ->
  (forall number q, ToBigNumber number = Some q -> ToSha number unit = Ok "0")
  /\ (forall number, FromSha number unit = Panic DivisionByZero).
Proof.
  intros Hu Hz. destruct (getValueOfUnit_integral unit scale Hu) as (k & -> & _).
  rewrite Rat_Num_SetInt in Hz. subst k. split.
  - intros number q Hq. unfold ToSha. rewrite Hq, Hu. simpl.
    change (Rat_SetInt 0) with (Q2Qc 0). rewrite Qcmult_0_r. reflexivity.
  - intros number. unfold FromSha. rewrite Hu. reflexivity.
Qed.

(** X8: an input of a dynamic type outside the switch of
    [ToBigNumber] (a machine integer, a float, nil) makes [FromDecimal]
    and [ToDecimal] panic on the nil rational; [ToSha] panics too, with
    the unknown-unit panic first when the unit is not known. *)
Theorem unhandled_type_panics (unit : string) :
  ToBigNumber VOther = None
  /\ FromDecimal VOther = Panic NilDereference
  /\ ToDecimal VOther = Panic NilDereference
  /\ ToSha VOther unit =
     match getValueOfUnit unit with
     | Ok _ => Panic NilDereference
     | Panic p => Panic p
     end.
Proof.
  repeat split.
Qed.

(** X9: [ToBigNumber] removes every "0x" of a prefixed string, not
    only the prefix: hex digits, a second "0x" and more hex digits are
    read as the digits joined together. *)
Theorem ToBigNumber_inner_0x (a b : string) (n : N) :
  scan_mantissa 16 (a ++ b) = Some n ->
  ToBigNumber (VString ("0x" ++ a ++ "0x" ++ b)) = Some (Rat_SetInt (Z.of_N n)).
Proof.
  intros Hscan.
  assert (Hx : string_forall not_x (a ++ b) = true).
  { destruct (a ++ b) as [|c s] eqn:E; [discriminate Hscan|].
    apply (hex_digits_no_x _ n), Hscan. }
  apply no_x_app in Hx as [Ha Hb].
  unfold ToBigNumber. rewrite !strings_Index_zero.
  rewrite !append_cons, !append_nil_l, prefix_0x_intro. cbn [orb].
  unfold strings_Replace. rewrite replace_0x_head.
  rewrite replace_inner_0x by assumption.
  unfold Int_SetString_into.
  rewrite (Int_SetString_mantissa 16 _ n) by (assumption || lia). reflexivity.
Qed.

(** X23: for a quantity that is not integral, the text of
    [FromDecimal] is bare hex digits without the "0x" prefix, so
    [ToBigNumber] takes it down its base-10 path instead of reading the
    hex back. *)
Theorem FromDecimal_fraction_unprefixed (value : value) (q : Qc) :
  ToBigNumber value = Some q -> Rat_IsInt q = false ->
  exists s, FromDecimal value = Ok s
            /\ s = nat_Text 16 (Rat_Float64bits q)
            /\ String.prefix "0x" s = false
            /\ String.prefix "-0x" s = false
            /\ ToBigNumber (VString s) = Some (Rat_SetInt (Int_SetString_into s 10)).
Proof.
  intros Hq Hint. exists (nat_Text 16 (Rat_Float64bits q)).
  assert (Hplain : string_forall plain_byte (nat_Text 16 (Rat_Float64bits q)) = true)
    by (apply nat_Text_plain; lia).
  assert (H0x : String.prefix "0x" (nat_Text 16 (Rat_Float64bits q)) = false)
    by (apply prefix_0x_no_x, plain_not_x, Hplain).
  assert (Hm0x : String.prefix "-0x" (nat_Text 16 (Rat_Float64bits q)) = false).
  { destruct (String.prefix "-0x" (nat_Text 16 (Rat_Float64bits q))) eqn:E; [|reflexivity].
    apply prefix_minus_0x in E as [t Ht]. rewrite Ht in Hplain. discriminate Hplain. }
  split; [unfold FromDecimal; rewrite Hq, Hint; reflexivity|].
  split; [reflexivity|]. split; [exact H0x|]. split; [exact Hm0x|].
  unfold ToBigNumber. rewrite !strings_Index_zero, H0x, Hm0x. reflexivity.
Qed.

End QuantityExtras.

Lemma hex_encode_decode_witness :
  exists h, @FromDecimal sample_lib (VInt (-255)) = Ok h
            /\ @ToBigNumber sample_lib (VString h) = Some (Rat_SetInt (-255)).
Proof.
  apply (@hex_encode_decode sample_lib (VInt (-255)) (Rat_SetInt (-255))); reflexivity.
Defined.


Lemma ToDecimal_fraction_witness :
  @ToDecimal sample_lib (VRat (Q2Qc (-3 # 6))) = Ok "-1/2"
  /\ Int_SetString "-1/2" 10 = None.
Proof.
  destruct (@ToDecimal_fraction sample_lib (VRat (Q2Qc (-3 # 6))) (Q2Qc (-3 # 6)))
    as (H1 & _ & H2 & _); [reflexivity | reflexivity |].
  split; [exact H1 | exact H2].
Defined.

Lemma ToSha_product_witness :
  exists k, 0 <= k /\ Rat_SetInt (10 ^ 3) = Rat_SetInt k
            /\ @ToSha sample_lib (VString "-0x10") "ksha" = Ok (Int_String (-16 * k)).
Proof.
  apply (@ToSha_product sample_lib (VString "-0x10") (-16) "ksha" (Rat_SetInt (10 ^ 3)));
    vm_compute; reflexivity.
Defined.

Lemma FromSha_drops_denominator_witness :
  exists k, 0 < k /\ Rat_SetInt (10 ^ 3) = Rat_SetInt k
            /\ @FromSha sample_lib "1500" "ksha" = Ok (Int_String (1500 / Z.gcd 1500 k))
            /\ ((k | 1500) -> @FromSha sample_lib "1500" "ksha" = Ok (Int_String (1500 / k))).
Proof.
  apply (@FromSha_drops_denominator sample_lib "1500" 1500 "ksha" (Rat_SetInt (10 ^ 3))).
  - vm_compute. reflexivity.
  - vm_compute. reflexivity.
  - intros H. apply (f_equal Rat_Num) in H. vm_compute in H. discriminate H.
Defined.

Lemma FromSha_ToSha_exact_witness :
  exists k s, Rat_SetInt (10 ^ 3) = Rat_SetInt k
              /\ @FromSha sample_lib (Int_String 7000) "ksha" = Ok s
              /\ (@ToSha sample_lib (VString s) "ksha" = Ok (Int_String 7000) <-> (k | 7000)).
Proof.
  apply (@FromSha_ToSha_exact sample_lib 7000 "ksha" (Rat_SetInt (10 ^ 3))).
  - vm_compute. reflexivity.
  - intros H. apply (f_equal Rat_Num) in H. vm_compute in H. discriminate H.
Defined.

Lemma zero_scale_unit_witness :
  (forall number q, @ToBigNumber sample_lib number = Some q ->
                    @ToSha sample_lib number "nomc" = Ok "0")
  /\ (forall number, @FromSha sample_lib number "nomc" = Panic DivisionByZero).
Proof.
  apply (@zero_scale_unit sample_lib "nomc" (Rat_SetInt 0)).
  - vm_compute. reflexivity.
  - reflexivity.
Defined.

Lemma FromDecimal_fraction_unprefixed_witness :
  exists s, @FromDecimal sample_lib (VRat (Q2Qc (1 # 2))) = Ok s
            /\ s = nat_Text 16 (@Rat_Float64bits sample_lib (Q2Qc (1 # 2)))
            /\ String.prefix "0x" s = false
            /\ String.prefix "-0x" s = false
            /\ @ToBigNumber sample_lib (VString s)
               = Some (Rat_SetInt (@Int_SetString_into sample_lib s 10)).
Proof.
  apply (@FromDecimal_fraction_unprefixed sample_lib (VRat (Q2Qc (1 # 2))) (Q2Qc (1 # 2)));
    reflexivity.
Defined.

Lemma ToBigNumber_inner_0x_witness :
  @ToBigNumber sample_lib (VString "0x100x2") = Some (Rat_SetInt 258).
Proof. apply (@ToBigNumber_inner_0x sample_lib "10" "2" 258%N). reflexivity. Defined.

(** ** Addresses: what the checksum loop accepts *)

Lemma string_get_length s : forall j c, String.get j s = Some c -> (j < String.length s)%nat.
Proof.
  induction s as [|a s IH]; intros j c H; simpl in *; [discriminate|].
  destruct j as [|j]; [lia|]. apply IH in H. lia.
Qed.

Lemma string_forall_length_app (a b : string) :
  String.length (a ++ b) = (String.length a + String.length b)%nat.
Proof.
  induction a as [|c a IH]; [reflexivity|].
  rewrite append_cons. simpl. rewrite IH. reflexivity.
Qed.

Lemma hex40_length p s : hex40 p s -> (40 <= String.length s)%nat.
Proof.
  intros (body & [-> | ->] & Hlen & _); [lia|].
  rewrite string_forall_length_app, Hlen. simpl. lia.
Qed.

Section AddressExtras.
Context {lib : GoLibrary}.

Lemma loop_outcomes todo : forall address addressHash i,
  isChecksumAddress_loop address addressHash i todo = Ok true
  \/ isChecksumAddress_loop address addressHash i todo = Ok false
  \/ isChecksumAddress_loop address addressHash i todo = Panic IndexOutOfRange.
Proof.
  induction todo as [|todo IH]; intros address addressHash i; [left; reflexivity|].
  cbn [isChecksumAddress_loop]. unfold string_index.
  destruct (String.get i addressHash) as [h|]; simpl; [|auto].
  destruct (strconv_ParseInt (string_of_byte h) 16 32) as [d|]; [|auto].
  destruct (String.get i address) as [c|]; simpl.
  - destruct (7 <? d); simpl.
    + destruct (String.eqb (strings_ToUpper (string_of_byte c)) (string_of_byte c)); simpl; [auto|].
      destruct (d <=? 7); simpl; [|apply IH].
      destruct (String.eqb (strings_ToLower (string_of_byte c)) (string_of_byte c)); simpl;
        [auto | apply IH].
    + destruct (d <=? 7); simpl; [|apply IH].
      destruct (String.eqb (strings_ToLower (string_of_byte c)) (string_of_byte c)); simpl;
        [auto | apply IH].
  - destruct (7 <? d) eqn:H7; simpl; [auto|].
    assert (Hle : (d <=? 7) = true) by (apply Z.leb_le; apply Z.ltb_ge in H7; lia).
    rewrite Hle. simpl. auto.
Qed.

Lemma loop_accepts_complete todo : forall address addressHash i,
  (forall j, (i <= j < i + todo)%nat ->
     exists h d c,
       String.get j addressHash = Some h
       /\ strconv_ParseInt (string_of_byte h) 16 32 = Some d
       /\ String.get j address = Some c
       /\ (if 7 <? d then upper_fixed c else lower_fixed c) = false) ->
  isChecksumAddress_loop address addressHash i todo = Ok true.
Proof.
  induction todo as [|todo IH]; intros address addressHash i Hall; [reflexivity|].
  destruct (Hall i ltac:(lia)) as (h & d & c & Hh & Hd & Hc & Hcase).
  cbn [isChecksumAddress_loop]. unfold string_index. rewrite Hh. simpl. rewrite Hd, Hc. simpl.
  fold (upper_fixed c). fold (lower_fixed c).
  assert (Hrest : isChecksumAddress_loop address addressHash (S i) todo = Ok true).
  { apply IH. intros j Hj. apply Hall. lia. }
  destruct (7 <? d) eqn:H7; simpl.
  - rewrite Hcase. simpl.
    assert (Hle : (d <=? 7) = false) by (apply Z.leb_gt; apply Z.ltb_lt in H7; lia).
    rewrite Hle. simpl. exact Hrest.
  - assert (Hle : (d <=? 7) = true) by (apply Z.leb_le; apply Z.ltb_ge in H7; lia).
    rewrite Hle. simpl. rewrite Hcase. simpl. exact Hrest.
Qed.

(** X10: [isChecksumAddress] answers true exactly when, at each of
    the first forty positions, the digest text holds a hex digit and the
    address (with its prefix, if any) holds a character that the case
    mapping asked for by the digit still changes: a lowercase letter
    under a digit above 7, an uppercase letter under any other. *)
Theorem isChecksumAddress_accepts_iff (address : string) :
  isChecksumAddress address = Ok true <->
  forall j, (j < 40)%nat ->
    exists h d c,
      String.get j (Sha3 (strings_ToLower (strings_Replace address "0x" "")) (VString "")) = Some h
      /\ strconv_ParseInt (string_of_byte h) 16 32 = Some d
      /\ String.get j address = Some c
      /\ (if 7 <? d then upper_fixed c else lower_fixed c) = false.
Proof.
  unfold isChecksumAddress. split.
  - intros H j Hj. apply (loop_accepts_inverted 40 _ _ 0 H). lia.
  - intros H. apply loop_accepts_complete. intros j Hj. apply H. lia.
Qed.

(** X11: a string of fewer than forty bytes is never accepted:
    [isChecksumAddress] and [IsAddress] answer false on it or panic on
    an index out of range. *)
Theorem short_address_rejected (address : string) :
  (String.length address < 40)%nat ->
  (isChecksumAddress address = Ok false
   \/ isChecksumAddress address = Panic IndexOutOfRange)
  /\ (IsAddress address = Ok false \/ IsAddress address = Panic IndexOutOfRange).
Proof.
  intros Hlen.
  assert (Hc : isChecksumAddress address = Ok false
               \/ isChecksumAddress address = Panic IndexOutOfRange).
  { destruct (loop_outcomes 40 address
                (Sha3 (strings_ToLower (strings_Replace address "0x" "")) (VString "")) 0)
      as [H|H]; [|exact H].
    exfalso. destruct (loop_accepts_inverted 40 _ _ 0 H 39 ltac:(lia))
      as (h & d & c & _ & _ & Hget & _).
    apply string_get_length in Hget. lia. }
  split; [exact Hc|].
  pose proof (address_regex_lang lower_hex hexLower address hexLower_class) as Hl.
  pose proof (address_regex_lang upper_hex hexUpper address hexUpper_class) as Hu.
  fold smallCapsMatcher in Hl. fold allCapsMatcher in Hu. unfold IsAddress.
  destruct (regexp_MatchString smallCapsMatcher address).
  { exfalso. pose proof (hex40_length _ _ (proj1 Hl eq_refl)). lia. }
  destruct (regexp_MatchString allCapsMatcher address).
  { exfalso. pose proof (hex40_length _ _ (proj1 Hu eq_refl)). lia. }
  exact Hc.
Qed.

Lemma caseless_byte c :
  byte_lt c 128 = true -> byte_in "a" "z" c = false -> byte_in "A" "Z" c = false ->
  upper_fixed c = true /\ lower_fixed c = true.
Proof. each_byte c; intros H1 H2 H3; try discriminate; split; reflexivity. Qed.

(** X12: a string that starts with an ASCII byte other than a letter
    (every "0x"-prefixed string, every string starting with a digit) is
    an address for [IsAddress] exactly when it matches one of the two
    patterns; mixed case is never accepted. *)
Theorem IsAddress_caseless_head (c : ascii) (rest : string) :
  byte_lt c 128 = true -> byte_in "a" "z" c = false -> byte_in "A" "Z" c = false ->
  (IsAddress (String c rest) = Ok true <->
   hex40 lower_hex (String c rest) \/ hex40 upper_hex (String c rest)).
Proof.
  intros H1 H2 H3. destruct (caseless_byte c H1 H2 H3) as [Hup Hlow].
  pose proof (address_regex_lang lower_hex hexLower (String c rest) hexLower_class) as Hl.
  pose proof (address_regex_lang upper_hex hexUpper (String c rest) hexUpper_class) as Hu.
  fold smallCapsMatcher in Hl. fold allCapsMatcher in Hu. unfold IsAddress.
  destruct (regexp_MatchString smallCapsMatcher (String c rest)).
  { split; [intros _; left; apply Hl; reflexivity | reflexivity]. }
  destruct (regexp_MatchString allCapsMatcher (String c rest)).
  { split; [intros _; right; apply Hu; reflexivity | reflexivity]. }
  simpl. split.
  - intros H. exfalso. unfold isChecksumAddress in H.
    destruct (loop_rejects_caseless (String c rest)
                (Sha3 (strings_ToLower (strings_Replace (String c rest) "0x" "")) (VString ""))
                0 39 c eq_refl Hup Hlow) as [E|E]; rewrite E in H; discriminate H.
  - intros [H|H]; [apply Hl in H | apply Hu in H]; discriminate H.
Qed.

End AddressExtras.

Lemma isChecksumAddress_accepts_iff_witness :
  @isChecksumAddress bare_lib "aaaaaaaaaaaaaaaaaaaaaaaaaaaaaaaaaaaaaaaa" = Ok true
  /\ exists h d c,
       String.get 0 (@Sha3 bare_lib "aaaaaaaaaaaaaaaaaaaaaaaaaaaaaaaaaaaaaaaa" (VString "")) = Some h
       /\ strconv_ParseInt (string_of_byte h) 16 32 = Some d
       /\ String.get 0 "aaaaaaaaaaaaaaaaaaaaaaaaaaaaaaaaaaaaaaaa" = Some c
       /\ (if 7 <? d then @upper_fixed bare_lib c else @lower_fixed bare_lib c) = false.
Proof.
  assert (H : @isChecksumAddress bare_lib "aaaaaaaaaaaaaaaaaaaaaaaaaaaaaaaaaaaaaaaa" = Ok true)
    by (vm_compute; reflexivity).
  split; [exact H|].
  apply (proj1 (@isChecksumAddress_accepts_iff bare_lib
                  "aaaaaaaaaaaaaaaaaaaaaaaaaaaaaaaaaaaaaaaa") H 0%nat). lia.
Defined.

Lemma short_address_rejected_witness :
  (@isChecksumAddress sample_lib "0x407d" = Ok false
   \/ @isChecksumAddress sample_lib "0x407d" = Panic IndexOutOfRange)
  /\ (@IsAddress sample_lib "0x407d" = Ok false
      \/ @IsAddress sample_lib "0x407d" = Panic IndexOutOfRange).
Proof. apply (@short_address_rejected sample_lib "0x407d"). simpl. lia. Defined.

Lemma IsAddress_caseless_head_witness :
  @IsAddress sample_lib "0x407d73d8a49eeb85d32cf465507dd71d507100c1" = Ok true <->
  hex40 lower_hex "0x407d73d8a49eeb85d32cf465507dd71d507100c1"
  \/ hex40 upper_hex "0x407d73d8a49eeb85d32cf465507dd71d507100c1".
Proof.
  apply (@IsAddress_caseless_head sample_lib "0" "x407d73d8a49eeb85d32cf465507dd71d507100c1");
    reflexivity.
Defined.

(** ** Unit names and scale factors *)

Lemma ascii_lower_not_upper c : byte_in "A" "Z" (ascii_lower c) = false.
Proof. each_byte c; reflexivity. Qed.

Lemma string_map_lower_not_upper s :
  string_forall (fun c => negb (byte_in "A" "Z" c)) (string_map ascii_lower s) = true.
Proof.
  induction s as [|c s IH]; simpl; [reflexivity|].
  rewrite ascii_lower_not_upper, IH. reflexivity.
Qed.

Ltac power_of_thousand e :=
  exists e; split; [lia | f_equal; vm_compute; reflexivity].

Section UnitExtras.
Context {lib : GoLibrary}.

(** X13: every scale factor [getValueOfUnit] returns is zero or a
    power of a thousand up to 10^30. *)
Theorem scale_is_power_of_thousand (unit : string) (scale : Qc) :
  getValueOfUnit unit = Ok scale ->
  scale = Rat_SetInt 0
  \/ exists e, 0 <= e <= 10 /\ scale = Rat_SetInt (10 ^ (3 * e)).
Proof.
  rewrite getValueOfUnit_key.
  destruct (unitMap !! unit_key unit) as [v|] eqn:E; [|discriminate].
  intros [= <-]. apply elem_of_list_to_map_2 in E.
  repeat (apply elem_of_cons in E as [[= _ ->] | E];
          [first [ left; f_equal; vm_compute; reflexivity
                 | right; power_of_thousand 0
                 | right; power_of_thousand 1
                 | right; power_of_thousand 2
                 | right; power_of_thousand 3
                 | right; power_of_thousand 4
                 | right; power_of_thousand 5
                 | right; power_of_thousand 6
                 | right; power_of_thousand 7
                 | right; power_of_thousand 8
                 | right; power_of_thousand 9
                 | right; power_of_thousand 10 ] |]).
  apply elem_of_nil in E. destruct E.
Qed.

(** X14: on an ASCII unit name the lookup, and with it [ToSha] and
    [FromSha], give the same outcome for the name and for its trimmed,
    lowercased form. *)
Theorem unit_name_normal_form (unit : string) :
  isASCII unit = true ->
  let normal := strings_ToLower (strings_TrimSpace unit) in
  getValueOfUnit normal = getValueOfUnit unit
  /\ (forall number, ToSha number normal = ToSha number unit)
  /\ (forall number, FromSha number normal = FromSha number unit).
Proof.
  intros Hu normal. pose proof (getValueOfUnit_normal_form unit Hu) as H. fold normal in H.
  split; [exact H|]. split; intros number; [unfold ToSha | unfold FromSha]; rewrite H; reflexivity.
Qed.

Lemma unit_key_lowercase unit :
  isASCII unit = true ->
  string_forall (fun c => negb (byte_in "A" "Z" c)) (unit_key unit) = true.
Proof.
  intros Hu. unfold unit_key, strings_TrimSpace. rewrite Hu.
  destruct (String.eqb (trim_right (trim_left unit)) ""); [reflexivity|].
  unfold strings_ToLower.
  rewrite isASCII_trim_right by (apply isASCII_trim_left, Hu).
  apply string_map_lower_not_upper.
Qed.

(** X15: for an ASCII unit name the key looked up has no uppercase
    letter, so the entries "Gsha", "Ksha" and "Msha" of the table are
    never the entry read; those spellings resolve through the lowercase
    keys. *)
Theorem capitalised_keys_unused (unit : string) :
  isASCII unit = true ->
  unit_key unit <> "Gsha" /\ unit_key unit <> "Ksha" /\ unit_key unit <> "Msha"
  /\ forall k, string_forall (fun c => negb (byte_in "A" "Z" c)) k = false ->
               unit_key unit <> k.
Proof.
  intros Hu. pose proof (unit_key_lowercase unit Hu) as Hlow.
  assert (Hk : forall k, string_forall (fun c => negb (byte_in "A" "Z" c)) k = false ->
                         unit_key unit <> k).
  { intros k Hk Heq. rewrite Heq in Hlow. congruence. }
  split; [apply Hk; reflexivity|]. split; [apply Hk; reflexivity|].
  split; [apply Hk; reflexivity | exact Hk].
Qed.

End UnitExtras.

Lemma scale_is_power_of_thousand_witness :
  Rat_SetInt (10 ^ 21) = Rat_SetInt 0
  \/ exists e, 0 <= e <= 10 /\ Rat_SetInt (10 ^ 21) = Rat_SetInt (10 ^ (3 * e)).
Proof.
  apply (@scale_is_power_of_thousand sample_lib " Grand " (Rat_SetInt (10 ^ 21))).
  vm_compute. reflexivity.
Defined.

Lemma unit_name_normal_form_witness :
  @getValueOfUnit sample_lib (@strings_ToLower sample_lib (@strings_TrimSpace sample_lib " KMC "))
  = @getValueOfUnit sample_lib " KMC ".
Proof. apply (@unit_name_normal_form sample_lib " KMC "). reflexivity. Defined.

Lemma capitalised_keys_unused_witness :
  @unit_key sample_lib "Ksha" <> "Ksha".
Proof.
  destruct (@capitalised_keys_unused sample_lib "Ksha") as (_ & H & _); [reflexivity|].
  exact H.
Defined.

(** ** [ToHex], [ToASCII] and [FromASCII] *)

Lemma append_assoc (a b c : string) : (a ++ b) ++ c = a ++ (b ++ c).
Proof.
  induction a as [|x a IH]; [reflexivity|].
  rewrite !append_cons, IH. reflexivity.
Qed.

Lemma append_nil_r (a : string) : a ++ "" = a.
Proof.
  induction a as [|x a IH]; [reflexivity|]. rewrite append_cons, IH. reflexivity.
Qed.

Lemma repeat_byte_length c n : String.length (repeat_byte c n) = n.
Proof. induction n as [|n IH]; simpl; [|rewrite IH]; reflexivity. Qed.

Lemma int_wrap_id w z : 1 <= w -> int_range w z -> int_wrap w z = z.
Proof.
  intros Hw [Hlo Hhi]. unfold int_wrap.
  assert (Hpow : 2 ^ w = 2 * 2 ^ (w - 1)).
  { replace w with (Z.succ (w - 1)) at 1 by lia. apply Z.pow_succ_r. lia. }
  rewrite Z.mod_small by lia. lia.
Qed.

(** The text printed for a run of runes, continuing [acc]. *)
Lemma fold_hex_app (f : N -> string) runes : forall acc,
  fold_left (fun hex r => hex ++ f r) runes acc
  = acc ++ fold_right (fun r s => f r ++ s) "" runes.
Proof.
  induction runes as [|r runes IH]; intros acc; simpl.
  - rewrite append_nil_r. reflexivity.
  - rewrite IH, append_assoc. reflexivity.
Qed.

Lemma nat_Text_two_digits c :
  (16 <=? N_of_ascii c)%N = true -> nat_Text 16 (N_of_ascii c) = hex_of_byte c.
Proof. each_byte c; intros H; try discriminate H; reflexivity. Qed.

Lemma nat_Text_byte_length c :
  (1 <= String.length (nat_Text 16 (N_of_ascii c)) <= 2)%nat.
Proof. each_byte c; vm_compute; lia. Qed.

Lemma printable_hex text :
  string_forall (fun c => (16 <=? N_of_ascii c)%N) text = true ->
  fold_right (fun r s => fmt_Sprintf_x r ++ s) "" (map N_of_ascii (string_bytes text))
  = hex_of_bytes text.
Proof.
  induction text as [|c text IH]; [reflexivity|]. simpl.
  intros H. apply andb_prop in H as [Hc H].
  rewrite IH by exact H. unfold fmt_Sprintf_x. rewrite nat_Text_two_digits by exact Hc.
  reflexivity.
Qed.

Lemma ascii_hex_length text :
  let hex := fold_right (fun r s => fmt_Sprintf_x r ++ s) ""
                        (map N_of_ascii (string_bytes text)) in
  (String.length text <= String.length hex <= 2 * String.length text)%nat.
Proof.
  induction text as [|c text IH]; simpl; [lia|].
  rewrite string_forall_length_app. unfold fmt_Sprintf_x at 1 3.
  pose proof (nat_Text_byte_length c). simpl in IH. lia.
Qed.

Lemma trimLeftByte_split p s :
  exists pre, s = pre ++ trimLeftByte p s /\ string_forall p pre = true.
Proof.
  induction s as [|c s (pre & Hs & Hp)]; simpl.
  - exists "". split; reflexivity.
  - destruct (p c) eqn:Hc.
    + exists (String c pre). rewrite append_cons, <- Hs. simpl. rewrite Hc, Hp. auto.
    + exists "". split; reflexivity.
Qed.

Lemma trimRightByte_split p s :
  exists suf, s = trimRightByte p s ++ suf /\ string_forall p suf = true.
Proof.
  induction s as [|c s (suf & Hs & Hp)]; simpl.
  - exists "". split; reflexivity.
  - destruct (trimRightByte p s) as [|c' r] eqn:E.
    + rewrite append_nil_l in Hs. subst suf. destruct (p c) eqn:Hc.
      * exists (String c s). rewrite append_nil_l. simpl. rewrite Hc, Hp. auto.
      * exists s. rewrite append_cons, append_nil_l. auto.
    + exists suf. rewrite append_cons, <- Hs. auto.
Qed.

Lemma trimRightByte_idem p s : trimRightByte p (trimRightByte p s) = trimRightByte p s.
Proof.
  induction s as [|c s IH]; simpl; [reflexivity|].
  destruct (trimRightByte p s) as [|c' r] eqn:E.
  - destruct (p c) eqn:Hc; simpl; [reflexivity|]. rewrite Hc. reflexivity.
  - cbn [trimRightByte]. cbn [trimRightByte] in IH. rewrite IH. reflexivity.
Qed.

Lemma trimLeftByte_idem p s : trimLeftByte p (trimLeftByte p s) = trimLeftByte p s.
Proof.
  induction s as [|c s IH]; simpl; [reflexivity|].
  destruct (p c) eqn:Hc; [exact IH|]. simpl. rewrite Hc. reflexivity.
Qed.

(** Trimming on the left keeps a string trimmed on the right so. *)
Lemma trimRightByte_left p s :
  trimRightByte p s = s -> trimRightByte p (trimLeftByte p s) = trimLeftByte p s.
Proof.
  induction s as [|c s IH]; simpl; [reflexivity|].
  destruct (trimRightByte p s) as [|c' r] eqn:E.
  - destruct (p c) eqn:Hc; [discriminate|].
    intros [= <-]. simpl. rewrite Hc. reflexivity.
  - intros [= Hs]. destruct (p c) eqn:Hc.
    + apply IH. exact Hs.
    + cbn [trimRightByte]. rewrite E, Hs. reflexivity.
Qed.

Section TextExtras.
Context {lib : GoLibrary} {rt : GoRuntime}.

(** X16: [ToASCII] removes NUL bytes from the two ends of the
    decoded bytes and nothing else; trimming its result again changes
    nothing. *)
Theorem ToASCII_trims_NUL_ends (hexString : string) :
  (exists pre suf,
     common_HexToBytes hexString = pre ++ ToASCII hexString ++ suf
     /\ string_forall is_NUL pre = true /\ string_forall is_NUL suf = true)
  /\ trimLeftByte is_NUL (ToASCII hexString) = ToASCII hexString
  /\ trimRightByte is_NUL (ToASCII hexString) = ToASCII hexString.
Proof.
  unfold ToASCII, bytes_Trim_NUL. set (b := common_HexToBytes hexString).
  destruct (trimRightByte_split is_NUL b) as (suf & Hsuf & Hs).
  destruct (trimLeftByte_split is_NUL (trimRightByte is_NUL b)) as (pre & Hpre & Hp).
  split; [|split].
  - exists pre, suf. split; [|auto]. rewrite <- append_assoc, <- Hpre. exact Hsuf.
  - apply trimLeftByte_idem.
  - apply trimRightByte_left, trimRightByte_idem.
Qed.

(** X17: for ASCII text without a byte below 0x10, on a platform
    whose [int] has at least 32 bits and with sizes below 2^29,
    [FromASCII] is "0x", two hex digits per byte, and zeros up to
    [2 * padding] digits; text longer than the padding is kept whole,
    and a negative padding adds nothing. *)
Theorem FromASCII_printable (textString : string) (padding : Z) :
  32 <= strconv_IntSize ->
  - 2 ^ 29 <= padding < 2 ^ 30 -> Z.of_nat (String.length textString) < 2 ^ 29 ->
  isASCII textString = true ->
  string_forall (fun c => (16 <=? N_of_ascii c)%N) textString = true ->
  FromASCII textString padding =
  "0x" ++ hex_of_bytes textString
       ++ repeat_byte "0" (Z.to_nat (2 * padding - 2 * Z.of_nat (String.length textString))).
Proof.
  intros Hw Hpad Hlen Hascii Hprint. unfold FromASCII, string_runes. rewrite Hascii.
  rewrite fold_hex_app, append_nil_l, printable_hex by exact Hprint.
  rewrite hex_of_bytes_length.
  assert (Hp31 : 2 ^ 31 <= 2 ^ (strconv_IntSize - 1)) by (apply Z.pow_le_mono_r; lia).
  assert (H30 : 2 ^ 31 = 2 * 2 ^ 30) by reflexivity.
  rewrite (int_wrap_id _ (padding * 2)) by (unfold int_range; lia).
  rewrite int_wrap_id by (unfold int_range; lia).
  do 3 f_equal. lia.
Qed.

(** X18: for any ASCII text each byte prints as one or two hex digits,
    and the result of [FromASCII] has the two bytes of "0x" and then as
    many digits as the text printed or [2 * padding], whichever is
    more. *)
Theorem FromASCII_length (textString : string) (padding : Z) :
  32 <= strconv_IntSize ->
  - 2 ^ 29 <= padding < 2 ^ 30 -> Z.of_nat (String.length textString) < 2 ^ 29 ->
  isASCII textString = true ->
  exists digits,
    (String.length textString <= digits <= 2 * String.length textString)%nat
    /\ String.length (FromASCII textString padding)
       = (2 + Nat.max digits (Z.to_nat (2 * padding)))%nat
    /\ String.prefix "0x" (FromASCII textString padding) = true.
Proof.
  intros Hw Hpad Hlen Hascii. unfold FromASCII, string_runes. rewrite Hascii.
  rewrite fold_hex_app, append_nil_l.
  pose proof (ascii_hex_length textString) as Hdigits. simpl in Hdigits.
  set (hex := fold_right (fun r s => fmt_Sprintf_x r ++ s) ""
                         (map N_of_ascii (string_bytes textString))) in *.
  exists (String.length hex). split; [exact Hdigits|].
  assert (Hp31 : 2 ^ 31 <= 2 ^ (strconv_IntSize - 1)) by (apply Z.pow_le_mono_r; lia).
  assert (H30 : 2 ^ 31 = 2 * 2 ^ 30) by reflexivity.
  assert (H29 : 2 ^ 30 = 2 * 2 ^ 29) by reflexivity.
  rewrite (int_wrap_id _ (padding * 2)) by (unfold int_range; lia).
  rewrite int_wrap_id by (unfold int_range; lia).
  split.
  - rewrite !append_cons, append_nil_l. cbn [String.length].
    rewrite string_forall_length_app, repeat_byte_length. lia.
  - rewrite !append_cons, append_nil_l. apply prefix_0x_intro.
Qed.

(** X19: [FromASCII] is not injective: a byte below 0x10 prints as a
    single hex digit, so two different texts can print the same
    digits, whatever the padding. *)
Theorem FromASCII_collision (padding : Z) :
  let text1 := String (ascii_of_N 1) (String (ascii_of_N 35) "") in
  let text2 := String (ascii_of_N 18) (String (ascii_of_N 3) "") in
  text1 <> text2
  /\ FromASCII text1 padding = FromASCII text2 padding
  /\ (forall c, (N_of_ascii c < 16)%N ->
        String.length (fmt_Sprintf_x (N_of_ascii c)) = 1%nat).
Proof.
  intros text1 text2. split; [discriminate|]. split; [reflexivity|].
  intros c. each_byte c; intros H; try (vm_compute in H; discriminate H); reflexivity.
Qed.


End TextExtras.

Lemma FromASCII_printable_witness :
  @FromASCII sample_rt "abc" 5 = "0x6162630000".
Proof.
  apply (@FromASCII_printable sample_rt "abc" 5); simpl; try reflexivity; lia.
Defined.

Lemma FromASCII_length_witness :
  exists digits,
    (String.length "abc" <= digits <= 2 * String.length "abc")%nat
    /\ String.length (@FromASCII sample_rt "abc" 5)
       = (2 + Nat.max digits (Z.to_nat (2 * 5)))%nat
    /\ String.prefix "0x" (@FromASCII sample_rt "abc" 5) = true.
Proof.
  apply (@FromASCII_length sample_rt "abc" 5); simpl; try reflexivity; lia.
Defined.

(** ** The [Chain3] object *)

Section Chain3ObjectExtras.
Context {deps : Chain3Deps}.

Lemma chain3_run_invariant calls : forall chain3,
  requestManager (chain3_run chain3 calls) = requestManager chain3
  /\ Mc (chain3_run chain3 calls) = Mc chain3
  /\ Net (chain3_run chain3 calls) = Net chain3
  /\ provider (chain3_run chain3 calls) = last_provider calls (provider chain3).
Proof.
  induction calls as [|c calls IH]; intros chain3; [repeat split|].
  unfold chain3_run in *. cbn [fold_left].
  destruct (IH (chain3_step chain3 c)) as (H1 & H2 & H3 & H4).
  rewrite H1, H2, H3, H4. destruct c; repeat split.
Qed.

(** X21: whatever [SetProvider] and [Reset] calls follow
    [NewChain3], the request manager and the Mc and Net APIs stay the
    ones built from the first provider; only [CurrentProvider] follows
    the last [SetProvider], and [IsConnected] is always true. *)
Theorem provider_swap_keeps_manager (p0 : Provider) (calls : list chain3_call) :
  let chain3 := chain3_run (NewChain3 p0) calls in
  CurrentRequestManager chain3 = NewRequestManager p0
  /\ Mc chain3 = newMoacAPI (NewRequestManager p0)
  /\ Net chain3 = newNetAPI (NewRequestManager p0)
  /\ CurrentProvider chain3 = last_provider calls p0
  /\ IsConnected chain3 = true.
Proof.
  intros chain3. subst chain3.
  destruct (chain3_run_invariant calls (NewChain3 p0)) as (H1 & H2 & H3 & H4).
  unfold CurrentRequestManager, CurrentProvider. rewrite H1, H2, H3, H4.
  repeat split.
Qed.

End Chain3ObjectExtras.

Lemma provider_swap_keeps_manager_sample :
  @CurrentProvider sample_deps
    (@chain3_run sample_deps (@NewChain3 sample_deps 1%nat)
       [@CallSetProvider sample_deps 2%nat; @CallReset sample_deps true]) = 2%nat
  /\ @CurrentRequestManager sample_deps
       (@chain3_run sample_deps (@NewChain3 sample_deps 1%nat)
          [@CallSetProvider sample_deps 2%nat; @CallReset sample_deps true]) = 1%nat.
Proof. split; reflexivity. Qed.

(** ** The mock node *)

Lemma existsb_eqb_In (m : string) (l : list string) :
  existsb (String.eqb m) l = true -> In m l.
Proof.
  induction l as [|x l IH]; simpl; [discriminate|].
  destruct (String.eqb_spec m x) as [->|_]; [left; reflexivity|].
  intros H. right. apply IH, H.
Qed.

Section MockExtras.
Context {lib : GoLibrary} {mock : MockDeps}.
Variable generateResponse :
  rpc_RPC -> rpc_Request -> payload -> option rpc_Response * option go_error.

Ltac unknown_case method Hnot :=
  match goal with
  | |- context [String.eqb method ?n] =>
      destruct (String.eqb_spec method n) as [E|_];
      [exfalso; apply Hnot; rewrite E; apply existsb_eqb_In; vm_compute; reflexivity |]
  end.

(** X22: [Do] of the mock answers through [generateResponse] exactly
    for the method names of its switch, compared byte for byte; any
    other name gives no response and the error "Invalid method <name>",
    and a method field that is not a string makes the type assertion
    panic. *)
Theorem Do_dispatch (mc_rpc : rpc_RPC) (request : rpc_Request) :
  (forall method, request_Get request "method" = VString method ->
     (In method mock_methods ->
        exists v, Do generateResponse mc_rpc request
                  = DoReturn (generateResponse mc_rpc request v))
     /\ (~ In method mock_methods ->
           Do generateResponse mc_rpc request
           = DoReturn (None, Some (fmt_Errorf ("Invalid method " ++ method)))))
  /\ ((forall method, request_Get request "method" <> VString method) ->
        Do generateResponse mc_rpc request = DoPanic).
Proof.
  split.
  - intros method Hget. split.
    + intros Hin. unfold mock_methods in Hin. simpl in Hin.
      repeat (destruct Hin as [<- | Hin];
              [unfold Do; rewrite Hget; eexists; reflexivity |]).
      destruct Hin.
    + intros Hnot. unfold Do. rewrite Hget.
      repeat unknown_case method Hnot. reflexivity.
  - intros Hnot. unfold Do.
    destruct (request_Get request "method") as [v|v|v|]; try reflexivity.
    destruct (Hnot v eq_refl).
Qed.

End MockExtras.

Lemma Do_dispatch_witness :
  (exists v, @Do sample_lib sample_mock sample_generateResponse tt "mc_blockNumber"
             = DoReturn (sample_generateResponse tt "mc_blockNumber" v))
  /\ @Do sample_lib sample_mock sample_generateResponse tt "mc_submitHashrate"
     = DoReturn (None, Some (@fmt_Errorf sample_mock "Invalid method mc_submitHashrate")).
Proof.
  destruct (@Do_dispatch sample_lib sample_mock sample_generateResponse tt "mc_blockNumber")
    as [Hknown _].
  destruct (@Do_dispatch sample_lib sample_mock sample_generateResponse tt "mc_submitHashrate")
    as [Hunknown _].
  split.
  - apply (Hknown "mc_blockNumber" eq_refl). apply existsb_eqb_In. reflexivity.
  - apply (Hunknown "mc_submitHashrate" eq_refl).
    intros Hin. unfold mock_methods in Hin. simpl in Hin.
    repeat (destruct Hin as [Hin | Hin]; [discriminate Hin |]). destruct Hin.
Defined.
